(** * forza: balance-sheet reclassification, from model text to report

    A shallow embedding of [tools.py]: [extract_json] (the brace-scanning
    extractor) and [write_to_pdf] (the report builder, which also does the
    subtotal and total arithmetic), together with the conversion sequence
    of [app.py].

    Scope of the model.
    - A Python [str] is a [string]; characters are byte-sized code points.
    - A parsed JSON value is a [json].  Integer literals become Python
      [int] (unbounded, exact) and are modelled as [Z]; [bool] behaves as
      the ints 1 and 0 in arithmetic and in formatting.  Literals with a
      fraction or an exponent become binary64 floats: their sums depend on
      the interpreter (the builtin [sum] is compensated from CPython 3.12
      on, [+=] is not), so floating-point amounts are left out and the
      documents of this development carry integer amounts.
    - A Python [dict] is an association list in insertion order.  The keys
      of a dict are distinct; no lemma below needs it.
    - A raised exception is the [Raise] branch of [result].
    - [json.loads] and reportlab are libraries.  The parser is a parameter
      of [extract_json].  The report is the list of flowables handed to
      [doc.build].  What reportlab does with them is outside the model:
      [Paragraph] parses its text as markup and rejects text that is not
      well formed, and [doc.build] lays the flowables out and writes the
      file.  [Ok els] therefore says that the builder's own code ran to
      the call of [doc.build] with the list [els], and [Raise] that it
      raised before. *)

From Stdlib Require Import ZArith List String Ascii Bool Lia.
From Stdlib Require Import DecimalString Permutation.
From Stdlib Require DecimalPos DecimalN.
Import ListNotations.
Local Open Scope string_scope.
Local Open Scope Z_scope.
Local Open Scope list_scope.

(** ** Exceptions and the error monad *)

Inductive exn : Type :=
| ValueError_NoJSON      (* ValueError("No JSON found in the Groq response") *)
| JSONDecodeError        (* raised by json.loads, a ValueError subclass *)
| AttributeError         (* .items() / .get() on an object without it *)
| TypeError              (* iterating a non-iterable, int + non-number, format of None/list/dict *)
| ValueError_Format      (* Unknown format code 'f' for object of type 'str' *)
| OverflowError.         (* int too large to convert to float *)

Inductive result (A : Type) : Type :=
| Ok (a : A)
| Raise (e : exn).
Arguments Ok {A} a.
Arguments Raise {A} e.

Definition bind {A B : Type} (m : result A) (k : A -> result B) : result B :=
  match m with
  | Ok a => k a
  | Raise e => Raise e
  end.

Notation "x <- m ;; k" := (bind m (fun x => k))
  (at level 61, m at next level, right associativity).

(** ** Python values produced by json.loads

    Every JSON value except the numbers that Python reads as [float]
    (see the scope above): a quantification over [json] or [dict] below
    ranges over the documents whose numbers are integers. *)

#[warnings="-register-all"]
Inductive json : Type :=
| JNull
| JBool (b : bool)
| JInt (n : Z)
| JStr (s : string)
| JArr (l : list json)
| JObj (kv : list (string * json)).

Definition dict := list (string * json).

(** [key in d] *)
Fixpoint dict_has (k : string) (d : dict) : bool :=
  match d with
  | [] => false
  | (k', _) :: d' => if String.eqb k k' then true else dict_has k d'
  end.

(** [d[k]] when present *)
Fixpoint dict_get (k : string) (d : dict) : option json :=
  match d with
  | [] => None
  | (k', v) :: d' => if String.eqb k k' then Some v else dict_get k d'
  end.

(** [bool(v)] *)
Definition truthy (v : json) : bool :=
  match v with
  | JNull => false
  | JBool b => b
  | JInt n => negb (n =? 0)
  | JStr s => negb (String.eqb s "")
  | JArr l => match l with [] => false | _ => true end
  | JObj kv => match kv with [] => false | _ => true end
  end.

Fixpoint chars_of (s : string) : list json :=
  match s with
  | EmptyString => []
  | String c s' => JStr (String c EmptyString) :: chars_of s'
  end.

(** [for item in v]: the sequence iterated, or TypeError *)
Definition py_iter (v : json) : result (list json) :=
  match v with
  | JArr l => Ok l
  | JObj kv => Ok (map (fun p => JStr (fst p)) kv)
  | JStr s => Ok (chars_of s)
  | _ => Raise TypeError
  end.

(** [v.items()] *)
Definition py_items (v : json) : result dict :=
  match v with
  | JObj kv => Ok kv
  | _ => Raise AttributeError
  end.

(** [v.get(key, default)] *)
Definition py_get (v : json) (key : string) (default : json) : result json :=
  match v with
  | JObj kv => Ok (match dict_get key kv with Some x => x | None => default end)
  | _ => Raise AttributeError
  end.

(** The integer a value stands for in arithmetic: [bool] is a subclass of
    [int]. *)
Definition as_int (v : json) : option Z :=
  match v with
  | JInt n => Some n
  | JBool b => Some (if b then 1 else 0)
  | _ => None
  end.

(** [acc + v] for an int accumulator *)
Definition int_add (acc : Z) (v : json) : result Z :=
  match as_int v with
  | Some n => Ok (acc + n)
  | None => Raise TypeError
  end.

(** ** Formatting: [f"{x:,.2f}"] *)

(** [float(n)] for an int: round to nearest, ties to even, on 53 bits. *)
Definition round53 (a : Z) : Z :=
  let k := Z.log2 a in
  if k <? 53 then a
  else
    let e := k - 52 in
    let q := Z.shiftr a e in
    let r := a mod (2 ^ e) in
    let half := 2 ^ (e - 1) in
    let q' := if (half <? r) || ((r =? half) && Z.odd q) then q + 1 else q in
    q' * 2 ^ e.

Definition float_max_bound : Z := 2 ^ 1024.

Definition comma : ascii := ascii_of_nat 44.

(** Thousands separators, working from the least significant digit. *)
Fixpoint group3_rev (ds : list ascii) (i : nat) : list ascii :=
  match ds with
  | [] => []
  | d :: ds' =>
      match i with
      | 3%nat => comma :: d :: group3_rev ds' 1
      | _ => d :: group3_rev ds' (S i)
      end
  end.

Definition group3 (digits : string) : string :=
  string_of_list_ascii
    (rev (group3_rev (rev (list_ascii_of_string digits)) 0)).

(** The text of [f"{n:,.2f}"] for an int [n] in the range of a float. *)
Definition fmt_int (n : Z) : string :=
  let a := round53 (Z.abs n) in
  let body :=
    (group3 (NilZero.string_of_uint (N.to_uint (Z.to_N a))) ++ ".00")%string in
  if n <? 0 then ("-" ++ body)%string else body.

Definition format_2f (v : json) : result string :=
  match v with
  | JInt n =>
      if round53 (Z.abs n) <? float_max_bound then Ok (fmt_int n)
      else Raise OverflowError
  | JBool b => Ok (fmt_int (if b then 1 else 0))
  | JStr _ => Raise ValueError_Format
  | JNull | JArr _ | JObj _ => Raise TypeError
  end.


(** ** The report: the flowables handed to [doc.build] *)

Inductive style : Type := CustomTitle | SectionTitle | SubsectionTitle.

(** The two [TableStyle] lists of the source: the category table (header
    row, data rows, subtotal row) and the total banner. *)
Inductive table_style : Type := CategoryTable | TotalBanner.

Inductive flowable : Type :=
| Paragraph (text : string) (st : style)
| Spacer (width_pt : Z) (height_mm : Z)
| Table (data : list (list json)) (st : table_style)
| PageBreak.

Definition title_text : string :=
  "Reclassified Balance Sheet - Article 2424 CEE".

Definition header_row : list json := [JStr "Description"; JStr "Amount (€)"].

(** One pass of the inner loop: the row appended for [item]. *)
Definition item_row (item : json) : result (list json) :=
  label <- py_get item "label" (JStr "") ;;
  amount <- py_get item "amount" (JInt 0) ;;
  text <- format_2f amount ;;
  Ok [label; JStr text].

(** [for item in items: ... table_data.append([label, f"{amount:,.2f}"])] *)
Fixpoint append_rows (table_data : list (list json)) (items : list json)
  : result (list (list json)) :=
  match items with
  | [] => Ok table_data
  | item :: rest =>
      row <- item_row item ;;
      append_rows (table_data ++ [row]) rest
  end.

(** [sum(item.get("amount", 0) for item in items)]: start at 0, add the
    items' amounts from left to right. *)
Fixpoint sum_loop (acc : Z) (items : list json) : result Z :=
  match items with
  | [] => Ok acc
  | item :: rest =>
      v <- py_get item "amount" (JInt 0) ;;
      acc' <- int_add acc v ;;
      sum_loop acc' rest
  end.

Definition sum_amounts (items : json) : result Z :=
  l <- py_iter items ;;
  sum_loop 0 l.

(** The body of [for category, items in ....items()].  The call
    [Paragraph(category, ...)] is recorded as a flowable; reportlab's
    reading of [category] as markup is not modelled. *)
Definition render_category (elements : list flowable)
    (category : string) (items : json) : result (list flowable) :=
  if truthy items then
    let elements := elements ++ [Paragraph category SubsectionTitle] in
    l <- py_iter items ;;
    table_data <- append_rows [header_row] l ;;
    subtotal <- sum_amounts items ;;
    text <- format_2f (JInt subtotal) ;;
    let table_data := table_data ++ [[JStr "Subtotal"; JStr text]] in
    Ok (elements ++ [Table table_data CategoryTable; Spacer 1 3])
  else Ok elements.

Fixpoint render_categories (elements : list flowable) (cats : dict)
  : result (list flowable) :=
  match cats with
  | [] => Ok elements
  | (category, items) :: rest =>
      elements' <- render_category elements category items ;;
      render_categories elements' rest
  end.

(** [total = 0; for category, items in ...: total += sum(...)] *)
Fixpoint total_loop (total : Z) (cats : dict) : result Z :=
  match cats with
  | [] => Ok total
  | (_, items) :: rest =>
      s <- sum_amounts items ;;
      total_loop (total + s) rest
  end.

(** The block under [if "ATTIVO" in data_dict:]; the PASSIVO block is the
    same code with its own two captions. *)
Definition render_section (elements : list flowable)
    (caption total_caption : string) (section : json)
  : result (list flowable) :=
  let elements := elements ++ [Paragraph caption SectionTitle] in
  cats <- py_items section ;;
  elements <- render_categories elements cats ;;
  total <- total_loop 0 cats ;;
  text <- format_2f (JInt total) ;;
  Ok (elements ++ [Table [[JStr total_caption; JStr text]] TotalBanner]).

(** [if key in data_dict: <block on data_dict[key]>] *)
Definition when_present (key : string) (data_dict : dict)
    (elements : list flowable)
    (block : list flowable -> json -> result (list flowable))
  : result (list flowable) :=
  match dict_get key data_dict with
  | Some section => block elements section
  | None => Ok elements
  end.

(** [write_to_pdf(data_dict, output_path)]: the list given to
    [doc.build], or the exception raised on the way by the builder's own
    code (lookups, iteration, sums and formats). *)
Definition write_to_pdf (data_dict : dict) : result (list flowable) :=
  let elements := [Paragraph title_text CustomTitle; Spacer 1 5] in
  elements <- when_present "ATTIVO" data_dict elements
                (fun els sec =>
                   render_section els "ATTIVO (Assets)" "TOTAL ATTIVO" sec) ;;
  let elements := elements ++ [PageBreak] in
  elements <- when_present "PASSIVO" data_dict elements
                (fun els sec =>
                   render_section els "PASSIVO (Liabilities & Equity)"
                     "TOTAL PASSIVO" sec) ;;
  Ok elements.

(** ** The extractor *)

Definition open_brace : ascii := ascii_of_nat 123.
Definition close_brace : ascii := ascii_of_nat 125.
Definition squote : ascii := ascii_of_nat 39.
Definition dquote : ascii := ascii_of_nat 34.

(** [str.isspace] on one character (code points below 256). *)
Definition isspace (c : ascii) : bool :=
  let n := nat_of_ascii c in
  ((9 <=? n) && (n <=? 13) || (28 <=? n) && (n <=? 32)
   || (n =? 133) || (n =? 160))%nat.

Fixpoint lstrip (p : ascii -> bool) (s : string) : string :=
  match s with
  | EmptyString => EmptyString
  | String c s' => if p c then lstrip p s' else s
  end.

Fixpoint rstrip (p : ascii -> bool) (s : string) : string :=
  match s with
  | EmptyString => EmptyString
  | String c s' =>
      match rstrip p s' with
      | EmptyString => if p c then EmptyString else String c EmptyString
      | r => String c r
      end
  end.

(** [s.strip(chars)], the character set given as a predicate *)
Definition strip (p : ascii -> bool) (s : string) : string :=
  rstrip p (lstrip p s).

(** The first statement of [extract_json]: strip single quotes, then
    double quotes, then whitespace, each from both ends. *)
Definition cleaned (json_str : string) : string :=
  strip isspace
    (strip (Ascii.eqb dquote) (strip (Ascii.eqb squote) json_str)).

(** What the tail of the pattern (any characters, DOTALL, greedy, then a
    closing brace) matches at the head of [s]: the longest prefix that
    ends with a closing brace. *)
Fixpoint greedy_to_close (s : string) : option string :=
  match s with
  | EmptyString => None
  | String c s' =>
      match greedy_to_close s' with
      | Some m => Some (String c m)
      | None =>
          if Ascii.eqb c close_brace then Some (String c EmptyString)
          else None
      end
  end.

(** The whole pattern anchored at the head of [s]. *)
Definition match_here (s : string) : option string :=
  match s with
  | EmptyString => None
  | String c s' =>
      if Ascii.eqb c open_brace then
        match greedy_to_close s' with
        | Some m => Some (String c m)
        | None => None
        end
      else None
  end.

(** [re.search(pattern, s, re.DOTALL)]: the match at the leftmost
    position that has one; the result is [match.group()]. *)
Fixpoint re_search (s : string) : option string :=
  match match_here s with
  | Some m => Some m
  | None =>
      match s with
      | EmptyString => None
      | String _ s' => re_search s'
      end
  end.

(** [extract_json(json_str)].  [loads] is [json.loads] on a text that
    starts with an opening brace: the dict parsed, or [None] for
    JSONDecodeError. *)
Definition extract_json (loads : string -> option dict) (json_str : string)
  : result dict :=
  match re_search (cleaned json_str) with
  | Some group =>
      match loads group with
      | Some d => Ok d
      | None => Raise JSONDecodeError
      end
  | None => Raise ValueError_NoJSON
  end.

(** [upload_file] of app.py after the generation call:
    [extract_json], then [write_to_pdf] on its result. *)
Definition convert (loads : string -> option dict) (response : string)
  : result (list flowable) :=
  d <- extract_json loads response ;;
  write_to_pdf d.

(** ** The document read as a balance sheet *)

Definition sum_Z (l : list Z) : Z := fold_right Z.add 0 l.

Definition amount_val (kv : dict) : json :=
  match dict_get "amount" kv with Some v => v | None => JInt 0 end.

(** The amount of a line item; an absent amount counts as zero. *)
Definition amount_of (item : json) : Z :=
  match item with
  | JObj kv => match as_int (amount_val kv) with Some n => n | None => 0 end
  | _ => 0
  end.

(** The label of a line item; an absent label is the empty string. *)
Definition label_of (item : json) : json :=
  match item with
  | JObj kv => match dict_get "label" kv with Some v => v | None => JStr "" end
  | _ => JStr ""
  end.

(** The line items of a category. *)
Definition items_of (items : json) : list json :=
  match items with
  | JArr l => l
  | _ => []
  end.

(** Category.subtotal: the sum of the category's line-item amounts. *)
Definition subtotal (items : json) : Z :=
  sum_Z (map amount_of (items_of items)).

(** Section.total: the sum of the section's category subtotals. *)
Definition section_total (cats : dict) : Z :=
  sum_Z (map (fun p => subtotal (snd p)) cats).

Definition row_of (item : json) : list json :=
  [label_of item; JStr (fmt_int (amount_of item))].

Definition subtotal_row (items : json) : list json :=
  [JStr "Subtotal"; JStr (fmt_int (subtotal items))].

Definition category_table (items : json) : flowable :=
  Table (header_row :: map row_of (items_of items) ++ [subtotal_row items])
        CategoryTable.

Definition category_block (category : string) (items : json)
  : list flowable :=
  if truthy items then
    [Paragraph category SubsectionTitle; category_table items; Spacer 1 3]
  else [].

Definition total_banner (total_caption : string) (cats : dict) : flowable :=
  Table [[JStr total_caption; JStr (fmt_int (section_total cats))]]
        TotalBanner.

Definition section_block (caption total_caption : string) (cats : dict)
  : list flowable :=
  Paragraph caption SectionTitle
    :: flat_map (fun p => category_block (fst p) (snd p)) cats
    ++ [total_banner total_caption cats].

Definition section_part (key caption total_caption : string) (d : dict)
  : list flowable :=
  match dict_get key d with
  | Some (JObj cats) => section_block caption total_caption cats
  | _ => []
  end.

Definition attivo_part (d : dict) : list flowable :=
  section_part "ATTIVO" "ATTIVO (Assets)" "TOTAL ATTIVO" d.

Definition passivo_part (d : dict) : list flowable :=
  section_part "PASSIVO" "PASSIVO (Liabilities & Equity)" "TOTAL PASSIVO" d.

Definition title_part : list flowable :=
  [Paragraph title_text CustomTitle; Spacer 1 5].

(** The report as a function of the document, with the sums written as
    sums. *)
Definition report_layout (d : dict) : list flowable :=
  title_part ++ attivo_part d ++ [PageBreak] ++ passivo_part d.

(** *** When the builder runs to its end *)

(** An int that [float()] accepts. *)
Definition fits_float (n : Z) : bool :=
  round53 (Z.abs n) <? float_max_bound.

(** An item the row loop accepts: a dict whose amount is absent, an int in
    float range, or a bool. *)
Definition item_ok (item : json) : bool :=
  match item with
  | JObj kv =>
      match amount_val kv with
      | JInt n => fits_float n
      | JBool _ => true
      | _ => false
      end
  | _ => false
  end.

(** An item the summing loop accepts. *)
Definition item_sums (item : json) : bool :=
  match item with
  | JObj kv => match as_int (amount_val kv) with Some _ => true | None => false end
  | _ => false
  end.

Definition cat_renders (items : json) : bool :=
  if truthy items then
    match items with
    | JArr l => forallb item_ok l && fits_float (sum_Z (map amount_of l))
    | _ => false
    end
  else true.

Definition cat_sums (items : json) : bool :=
  match items with
  | JArr l => forallb item_sums l
  | JObj [] => true
  | JStr EmptyString => true
  | _ => false
  end.

Definition section_ok (section : json) : bool :=
  match section with
  | JObj cats =>
      forallb (fun p => cat_renders (snd p)) cats
      && forallb (fun p => cat_sums (snd p)) cats
      && fits_float (section_total cats)
  | _ => false
  end.

Definition key_ok (key : string) (d : dict) : bool :=
  match dict_get key d with
  | Some section => section_ok section
  | None => true
  end.

Definition valid (d : dict) : bool :=
  key_ok "ATTIVO" d && key_ok "PASSIVO" d.

Definition raises {A : Type} (r : result A) : Prop :=
  exists e, r = Raise e.

Definition is_page_break (f : flowable) : bool :=
  match f with PageBreak => true | _ => false end.

Definition count_page_breaks (els : list flowable) : nat :=
  List.length (filter is_page_break els).

(** *** The span, in the words of the description: from the first opening
    brace to the last closing brace *)

Fixpoint find_first (c : ascii) (s : string) : option nat :=
  match s with
  | EmptyString => None
  | String a s' =>
      if Ascii.eqb a c then Some 0%nat else option_map S (find_first c s')
  end.

Fixpoint find_last (c : ascii) (s : string) : option nat :=
  match s with
  | EmptyString => None
  | String a s' =>
      match find_last c s' with
      | Some j => Some (S j)
      | None => if Ascii.eqb a c then Some 0%nat else None
      end
  end.

Definition span_first_open_last_close (s : string) : option string :=
  match find_first open_brace s, find_last close_brace s with
  | Some i, Some j =>
      if (i <? j)%nat then Some (substring i (j - i + 1) s) else None
  | _, _ => None
  end.

Fixpoint str_all (p : ascii -> bool) (s : string) : bool :=
  match s with
  | EmptyString => true
  | String c s' => p c && str_all p s'
  end.

Definition not_brace (c : ascii) : bool :=
  negb (Ascii.eqb c open_brace) && negb (Ascii.eqb c close_brace).

Definition braced (mid : string) : string :=
  String open_brace (mid ++ String close_brace EmptyString)%string.

(** The text has an opening brace with a closing brace somewhere after it. *)
Definition has_brace_span (s : string) : Prop :=
  exists a mid b, s = (a ++ braced mid ++ b)%string.

(** ** Documents and parsers used in the examples *)


Definition line (label : string) (amount : Z) : json :=
  JObj [("label", JStr label); ("amount", JInt amount)].

(** Both sections, two categories each, two items each. *)
Definition doc_two_sections : dict :=
  [("ATTIVO",
    JObj [("B) Immobilizzazioni immateriali",
           JArr [line "Software" 3041; line "Brevetti" 1200]);
          ("C) Attivo circolante",
           JArr [line "Crediti" 150; line "Cassa" 250])]);
   ("PASSIVO",
    JObj [("A) Patrimonio netto",
           JArr [line "Capitale" 4000; line "Perdita" (-359)]);
          ("D) Debiti",
           JArr [line "Fornitori" 600; line "Banche" 400])])].

(** A parser that accepts one text only. *)
Definition loads_only (text : string) (d : dict) (s : string) : option dict :=
  if String.eqb s text then Some d else None.

Definition quoted (s : string) : string :=
  String dquote (s ++ String dquote EmptyString)%string.

Definition newline : ascii := ascii_of_nat 10.

(** The text of an object with the one key PASSIVO and an empty mapping. *)
Definition passivo_only_text : string :=
  braced (quoted "PASSIVO" ++ ": {}")%string.

(** A response with commentary around the object. *)
Definition commented_response : string :=
  ("Here is the result: " ++ passivo_only_text
   ++ String newline "Thanks")%string.

(** ** The text source: [read_docx] *)

(** The loop of [read_docx] over [doc.paragraphs], each paragraph given by
    its text: a paragraph whose stripped text is non-empty contributes
    that stripped text. *)
Fixpoint collect_text (full_text : list string) (paragraphs : list string)
  : list string :=
  match paragraphs with
  | [] => full_text
  | para :: rest =>
      if truthy (JStr (strip isspace para)) then
        collect_text (full_text ++ [strip isspace para]) rest
      else collect_text full_text rest
  end.

(** [read_docx(path)], as a function of the paragraph texts of the
    document: the collected lines joined with a newline. *)
Definition read_docx (paragraphs : list string) : string :=
  String.concat (String newline EmptyString) (collect_text [] paragraphs).

(** ** The spreadsheet export: the row loops of [write_excel_from_json]

    Only the loops that build the rows of one section are modelled (the
    body of the outer loop up to [pd.DataFrame]); the writer, the data
    frame and [to_excel] belong to pandas and are left out. *)

(** [for rec in records: rows.append({...})]; [rec.get(key)] without a
    default gives [None]. *)
Fixpoint rows_of_records (rows : list dict) (section subcat : string)
    (records : list json) : result (list dict) :=
  match records with
  | [] => Ok rows
  | rec :: rest =>
      label <- py_get rec "label" JNull ;;
      amount <- py_get rec "amount" JNull ;;
      rows_of_records
        (rows ++ [[("section", JStr section); ("subcategory", JStr subcat);
                   ("label", label); ("amount", amount)]])
        section subcat rest
  end.

(** [for subcat, records in items.items(): ...] *)
Fixpoint rows_of_subcats (rows : list dict) (section : string)
    (subcats : dict) : result (list dict) :=
  match subcats with
  | [] => Ok rows
  | (subcat, records) :: rest =>
      l <- py_iter records ;;
      rows' <- rows_of_records rows section subcat l ;;
      rows_of_subcats rows' section rest
  end.

(** ** The upload gate: [allowed_file] of app.py *)

Definition dot : ascii := ascii_of_nat 46.

Definition ALLOWED_EXTENSIONS : list string := ["docx"].

(** [c in s] for one character *)
Fixpoint contains (c : ascii) (s : string) : bool :=
  match s with
  | EmptyString => false
  | String a s' => Ascii.eqb a c || contains c s'
  end.

(** The split at the last occurrence of [sep], if there is one. *)
Fixpoint split_last (sep : ascii) (s : string) : option (string * string) :=
  match s with
  | EmptyString => None
  | String c s' =>
      match split_last sep s' with
      | Some (a, b) => Some (String c a, b)
      | None => if Ascii.eqb c sep then Some (EmptyString, s') else None
      end
  end.

(** [s.rsplit(sep, 1)] *)
Definition rsplit1 (sep : ascii) (s : string) : list string :=
  match split_last sep s with
  | Some (a, b) => [a; b]
  | None => [s]
  end.

(** [str.lower] on one character (code points below 256). *)
Definition lower_char (c : ascii) : ascii :=
  let n := nat_of_ascii c in
  if ((65 <=? n) && (n <=? 90)
      || (192 <=? n) && (n <=? 222) && negb (n =? 215))%nat
  then ascii_of_nat (n + 32) else c.

Fixpoint lower (s : string) : string :=
  match s with
  | EmptyString => EmptyString
  | String c s' => String (lower_char c) (lower s')
  end.

(** [allowed_file(filename)] *)
Definition allowed_file (filename : string) : bool :=
  contains dot filename
  && match nth_error (rsplit1 dot filename) 1 with
     | Some ext => existsb (String.eqb (lower ext)) ALLOWED_EXTENSIONS
     | None => false
     end.

(** *** Auxiliary notions for the statements *)

Definition is_quote_or_space (c : ascii) : bool :=
  Ascii.eqb squote c || Ascii.eqb dquote c || isspace c.

Definition first_char_is (p : ascii -> bool) (s : string) : bool :=
  match s with
  | EmptyString => false
  | String c _ => p c
  end.

Fixpoint last_char_is (p : ascii -> bool) (s : string) : bool :=
  match s with
  | EmptyString => false
  | String c EmptyString => p c
  | String _ s' => last_char_is p s'
  end.

(** The digits of a formatted amount: separators and the two decimals
    removed, the sign kept apart. *)
Fixpoint remove_char (c : ascii) (s : string) : string :=
  match s with
  | EmptyString => EmptyString
  | String a s' =>
      if Ascii.eqb a c then remove_char c s' else String a (remove_char c s')
  end.

Fixpoint before_char (c : ascii) (s : string) : string :=
  match s with
  | EmptyString => EmptyString
  | String a s' => if Ascii.eqb a c then EmptyString else String a (before_char c s')
  end.

(** Reading a formatted amount back: the integer part, as an integer. *)
Definition read_amount (text : string) : option Z :=
  match remove_char comma (before_char dot text) with
  | String c rest =>
      if Ascii.eqb c (ascii_of_nat 45) then
        option_map (fun u => - Z.of_N (N.of_uint u)) (NilZero.uint_of_string rest)
      else
        option_map (fun u => Z.of_N (N.of_uint u))
          (NilZero.uint_of_string (String c rest))
  | EmptyString => None
  end.

Definition is_category_table (f : flowable) : bool :=
  match f with Table _ CategoryTable => true | _ => false end.

Definition is_total_banner (f : flowable) : bool :=
  match f with Table _ TotalBanner => true | _ => false end.

(** The texts of the category headers of a report, in order. *)
Fixpoint subsection_titles (els : list flowable) : list string :=
  match els with
  | [] => []
  | Paragraph text SubsectionTitle :: rest => text :: subsection_titles rest
  | _ :: rest => subsection_titles rest
  end.

(** The categories of a section value that the builder renders. *)
Definition rendered_categories (section : option json) : list string :=
  match section with
  | Some (JObj cats) => map fst (filter (fun p => truthy (snd p)) cats)
  | _ => []
  end.

Definition sections_present (d : dict) : nat :=
  ((if dict_has "ATTIVO" d then 1 else 0)
   + (if dict_has "PASSIVO" d then 1 else 0))%nat.

(** A record the export accepts, and a category value it accepts. *)
Definition is_dict (v : json) : bool :=
  match v with JObj _ => true | _ => false end.

Definition records_ok (records : json) : bool :=
  match py_iter records with
  | Ok l => forallb is_dict l
  | Raise _ => false
  end.

(** No opening brace, no closing brace, in a text. *)
Definition no_open (s : string) : bool :=
  str_all (fun c => negb (Ascii.eqb c open_brace)) s.

Definition no_close (s : string) : bool :=
  str_all (fun c => negb (Ascii.eqb c close_brace)) s.

Definition not_quote (c : ascii) : bool :=
  negb (Ascii.eqb squote c) && negb (Ascii.eqb dquote c).

(** The least magnitude that [float()] rejects: halfway between the
    largest float and [2 ^ 1024]. *)
Definition float_limit : Z := 2 ^ 1024 - 2 ^ 970.

Definition is_digit (c : ascii) : bool :=
  let n := nat_of_ascii c in ((48 <=? n) && (n <=? 57))%nat.

(** A line kept by [read_docx], and what holds of each line it keeps. *)
Definition nonblank (s : string) : bool := truthy (JStr s).

Definition good_line (s : string) : Prop :=
  s <> EmptyString /\ first_char_is isspace s = false
  /\ last_char_is isspace s = false.

(** The row built for one record. *)
Definition excel_row (section subcat : string) (rec : json) : dict :=
  [("section", JStr section); ("subcategory", JStr subcat);
   ("label", match rec with
             | JObj kv => match dict_get "label" kv with
                          | Some v => v
                          | None => JNull
                          end
             | _ => JNull
             end);
   ("amount", match rec with
              | JObj kv => match dict_get "amount" kv with
                           | Some v => v
                           | None => JNull
                           end
              | _ => JNull
              end)].

Definition records_of (records : json) : list json :=
  match py_iter records with
  | Ok l => l
  | Raise _ => []
  end.

(** The rows built for a section with the given subcategories. *)
Definition section_rows (section : string) (subcats : dict) : list dict :=
  flat_map (fun p => map (excel_row section (fst p)) (records_of (snd p)))
           subcats.


(** * Facts about the report builder *)

Ltac raise_now := eexists; reflexivity.

Lemma dict_has_get (k : string) (d : dict) :
  dict_has k d = false <-> dict_get k d = None.
Proof.
  induction d as [|[k' v] d IH]; simpl.
  - tauto.
  - destruct (String.eqb k k'); [split; discriminate | exact IH].
Qed.

Lemma format_2f_int (n : Z) :
  format_2f (JInt n) =
  if fits_float n then Ok (fmt_int n) else Raise OverflowError.
Proof. reflexivity. Qed.

Lemma item_ok_sums (item : json) : item_ok item = true -> item_sums item = true.
Proof.
  destruct item as [| | | | |kv]; simpl; try discriminate.
  destruct (amount_val kv); simpl; try discriminate; reflexivity.
Qed.

Lemma item_row_ok (item : json) :
  item_ok item = true -> item_row item = Ok (row_of item).
Proof.
  destruct item as [| | | | |kv]; simpl; try discriminate.
  unfold item_row, row_of, amount_of, label_of, amount_val; simpl.
  destruct (dict_get "amount" kv) as [v|]; simpl.
  - destruct v; simpl; try discriminate.
    + intros _. reflexivity.
    + intros H. unfold fits_float in H. rewrite H. reflexivity.
  - intros _. reflexivity.
Qed.

Lemma item_row_raises (item : json) :
  item_ok item = false -> raises (item_row item).
Proof.
  destruct item as [| | | | |kv]; simpl; try (intros _; raise_now).
  unfold item_row, amount_val; simpl.
  destruct (dict_get "amount" kv) as [v|]; simpl.
  - destruct v; simpl; try discriminate; try (intros _; raise_now).
    intros H. unfold fits_float in H. rewrite H. raise_now.
  - discriminate.
Qed.

Lemma append_rows_ok (items : list json) : forall table_data,
  forallb item_ok items = true ->
  append_rows table_data items = Ok (table_data ++ map row_of items).
Proof.
  induction items as [|item rest IH]; intros td H; simpl in *.
  - now rewrite app_nil_r.
  - apply andb_true_iff in H as [Hi Hr].
    rewrite (item_row_ok _ Hi). simpl.
    rewrite (IH _ Hr), <- app_assoc. reflexivity.
Qed.

Lemma append_rows_raises (items : list json) : forall table_data,
  forallb item_ok items = false ->
  raises (append_rows table_data items).
Proof.
  induction items as [|item rest IH]; intros td H; simpl in *.
  - discriminate.
  - destruct (item_ok item) eqn:Hi; simpl in H.
    + rewrite (item_row_ok _ Hi). simpl. now apply IH.
    + destruct (item_row_raises _ Hi) as [e He]. rewrite He. raise_now.
Qed.

Lemma sum_loop_ok (items : list json) : forall acc,
  forallb item_sums items = true ->
  sum_loop acc items = Ok (acc + sum_Z (map amount_of items)).
Proof.
  induction items as [|item rest IH]; intros acc H; simpl in *.
  - now rewrite Z.add_0_r.
  - apply andb_true_iff in H as [Hi Hr].
    destruct item as [| | | | |kv]; simpl in Hi; try discriminate.
    simpl. fold (amount_val kv). unfold int_add.
    destruct (as_int (amount_val kv)) as [n|]; try discriminate.
    simpl. rewrite (IH _ Hr). f_equal. lia.
Qed.

Lemma sum_loop_raises (items : list json) : forall acc,
  forallb item_sums items = false ->
  raises (sum_loop acc items).
Proof.
  induction items as [|item rest IH]; intros acc H; simpl in *.
  - discriminate.
  - destruct item as [| | | | |kv]; simpl in *; try raise_now.
    fold (amount_val kv). unfold int_add.
    destruct (as_int (amount_val kv)) as [n|]; simpl in *.
    + now apply IH.
    + raise_now.
Qed.

Lemma forallb_item_ok_sums (l : list json) :
  forallb item_ok l = true -> forallb item_sums l = true.
Proof.
  rewrite !forallb_forall. intros H x Hx. apply item_ok_sums, H, Hx.
Qed.

Lemma sum_amounts_ok (items : json) :
  cat_sums items = true -> sum_amounts items = Ok (subtotal items).
Proof.
  destruct items as [| | |s|l|kv]; simpl; try discriminate.
  - destruct s; [reflexivity | discriminate].
  - intros H. unfold sum_amounts, subtotal. simpl.
    now rewrite (sum_loop_ok _ 0 H).
  - destruct kv; [reflexivity | discriminate].
Qed.

Lemma sum_amounts_raises (items : json) :
  cat_sums items = false -> raises (sum_amounts items).
Proof.
  destruct items as [| | |s|l|kv]; simpl; try (intros _; raise_now).
  - destruct s; [discriminate | intros _; raise_now].
  - intros H. unfold sum_amounts. simpl. now apply sum_loop_raises.
  - destruct kv as [|[k v] kv]; [discriminate | intros _; raise_now].
Qed.

Lemma cat_renders_sums (items : json) :
  truthy items = true -> cat_renders items = true -> cat_sums items = true.
Proof.
  unfold cat_renders. intros ->.
  destruct items; try discriminate. simpl.
  intros H. apply andb_true_iff in H as [H _]. now apply forallb_item_ok_sums.
Qed.

Lemma render_category_ok (elements : list flowable) (c : string) (items : json) :
  cat_renders items = true ->
  render_category elements c items = Ok (elements ++ category_block c items).
Proof.
  unfold cat_renders, render_category, category_block.
  destruct (truthy items) eqn:Ht.
  - destruct items as [| | | |l|]; try discriminate.
    intros H. apply andb_true_iff in H as [Hl Hs].
    simpl py_iter. cbn [bind].
    rewrite (append_rows_ok _ _ Hl). cbn [bind].
    unfold sum_amounts. simpl py_iter. cbn [bind].
    rewrite (sum_loop_ok _ 0 (forallb_item_ok_sums _ Hl)). cbn [bind].
    rewrite format_2f_int. simpl (0 + _). rewrite Hs. cbn [bind].
    unfold category_table, subtotal_row, subtotal. simpl items_of.
    rewrite <- app_assoc. reflexivity.
  - intros _. now rewrite app_nil_r.
Qed.

Lemma render_category_raises (elements : list flowable) (c : string) (items : json) :
  cat_renders items = false ->
  raises (render_category elements c items).
Proof.
  unfold cat_renders, render_category.
  destruct (truthy items) eqn:Ht; [|discriminate].
  destruct items as [|b|n|s|l|kv]; simpl in Ht; try discriminate;
    try (intros _; raise_now).
  - (* a non-empty string: its characters have no .get *)
    destruct s; [discriminate|]. intros _. raise_now.
  - intros H. simpl py_iter. cbn [bind].
    destruct (forallb item_ok l) eqn:Hl.
    + rewrite (append_rows_ok _ _ Hl). cbn [bind].
      unfold sum_amounts. simpl py_iter. cbn [bind].
      rewrite (sum_loop_ok _ 0 (forallb_item_ok_sums _ Hl)). cbn [bind].
      rewrite format_2f_int. simpl (0 + _). simpl in H. rewrite H. raise_now.
    + destruct (append_rows_raises _ [header_row] Hl) as [e He].
      rewrite He. raise_now.
  - (* a non-empty dict: its keys have no .get *)
    destruct kv as [|[k v] kv]; [discriminate|]. intros _. raise_now.
Qed.

Lemma render_categories_ok (cats : dict) : forall elements,
  forallb (fun p => cat_renders (snd p)) cats = true ->
  render_categories elements cats =
  Ok (elements ++ flat_map (fun p => category_block (fst p) (snd p)) cats).
Proof.
  induction cats as [|[c items] rest IH]; intros els H; simpl in *.
  - now rewrite app_nil_r.
  - apply andb_true_iff in H as [Hc Hr].
    rewrite (render_category_ok _ _ _ Hc). cbn [bind].
    rewrite (IH _ Hr), <- app_assoc. reflexivity.
Qed.

Lemma render_categories_raises (cats : dict) : forall elements,
  forallb (fun p => cat_renders (snd p)) cats = false ->
  raises (render_categories elements cats).
Proof.
  induction cats as [|[c items] rest IH]; intros els H; simpl in *.
  - discriminate.
  - destruct (cat_renders items) eqn:Hc; simpl in H.
    + rewrite (render_category_ok _ _ _ Hc). cbn [bind]. now apply IH.
    + destruct (render_category_raises els c _ Hc) as [e He].
      rewrite He. raise_now.
Qed.

Lemma total_loop_ok (cats : dict) : forall total,
  forallb (fun p => cat_sums (snd p)) cats = true ->
  total_loop total cats = Ok (total + section_total cats).
Proof.
  induction cats as [|[c items] rest IH]; intros total H; simpl in *.
  - unfold section_total. simpl. now rewrite Z.add_0_r.
  - apply andb_true_iff in H as [Hc Hr].
    rewrite (sum_amounts_ok _ Hc). cbn [bind].
    rewrite (IH _ Hr). unfold section_total. simpl. f_equal. lia.
Qed.

Lemma total_loop_raises (cats : dict) : forall total,
  forallb (fun p => cat_sums (snd p)) cats = false ->
  raises (total_loop total cats).
Proof.
  induction cats as [|[c items] rest IH]; intros total H; simpl in *.
  - discriminate.
  - destruct (cat_sums items) eqn:Hc; simpl in H.
    + rewrite (sum_amounts_ok _ Hc). cbn [bind]. now apply IH.
    + destruct (sum_amounts_raises _ Hc) as [e He]. rewrite He. raise_now.
Qed.

Lemma render_section_ok (elements : list flowable) (cap tcap : string)
    (cats : dict) :
  section_ok (JObj cats) = true ->
  render_section elements cap tcap (JObj cats) =
  Ok (elements ++ section_block cap tcap cats).
Proof.
  simpl. intros H.
  apply andb_true_iff in H as [H Hf]. apply andb_true_iff in H as [Hr Hs].
  unfold render_section. simpl py_items. cbn [bind].
  rewrite (render_categories_ok _ _ Hr). cbn [bind].
  rewrite (total_loop_ok _ 0 Hs). cbn [bind].
  rewrite format_2f_int. simpl (0 + _). rewrite Hf. cbn [bind].
  unfold section_block, total_banner.
  rewrite <- !app_assoc. reflexivity.
Qed.

Lemma render_section_raises (elements : list flowable) (cap tcap : string)
    (section : json) :
  section_ok section = false ->
  raises (render_section elements cap tcap section).
Proof.
  destruct section as [| | | | |cats]; try (intros _; raise_now).
  simpl. intros H. unfold render_section. simpl py_items. cbn [bind].
  destruct (forallb (fun p => cat_renders (snd p)) cats) eqn:Hr.
  - rewrite (render_categories_ok _ _ Hr). cbn [bind].
    destruct (forallb (fun p => cat_sums (snd p)) cats) eqn:Hs.
    + rewrite (total_loop_ok _ 0 Hs). cbn [bind].
      rewrite format_2f_int. simpl (0 + _). simpl in H. rewrite H. raise_now.
    + destruct (total_loop_raises _ 0 Hs) as [e He]. rewrite He. raise_now.
  - destruct (render_categories_raises _ (elements ++ [Paragraph cap SectionTitle]) Hr)
      as [e He].
    rewrite He. raise_now.
Qed.

Lemma when_present_ok (key cap tcap : string) (d : dict)
    (elements : list flowable) :
  key_ok key d = true ->
  when_present key d elements
    (fun els sec => render_section els cap tcap sec) =
  Ok (elements ++ section_part key cap tcap d).
Proof.
  unfold key_ok, when_present, section_part.
  destruct (dict_get key d) as [sec|].
  - destruct sec; try discriminate. apply render_section_ok.
  - intros _. now rewrite app_nil_r.
Qed.

Lemma when_present_raises (key cap tcap : string) (d : dict)
    (elements : list flowable) :
  key_ok key d = false ->
  raises (when_present key d elements
            (fun els sec => render_section els cap tcap sec)).
Proof.
  unfold key_ok, when_present.
  destruct (dict_get key d) as [sec|]; [|discriminate].
  apply render_section_raises.
Qed.

(** The builder's own code runs to the call of [doc.build] exactly on
    the valid documents, and then the flowables are the layout of the
    document. *)
Lemma write_to_pdf_valid (d : dict) :
  valid d = true -> write_to_pdf d = Ok (report_layout d).
Proof.
  unfold valid. intros H. apply andb_true_iff in H as [Ha Hp].
  unfold write_to_pdf.
  rewrite (when_present_ok _ _ _ _ _ Ha). cbn [bind].
  rewrite (when_present_ok _ _ _ _ _ Hp). cbn [bind].
  unfold report_layout, title_part, attivo_part, passivo_part.
  rewrite <- !app_assoc. reflexivity.
Qed.

Lemma write_to_pdf_invalid (d : dict) :
  valid d = false -> raises (write_to_pdf d).
Proof.
  unfold valid, write_to_pdf. intros H.
  destruct (key_ok "ATTIVO" d) eqn:Ha.
  - rewrite (when_present_ok _ _ _ _ _ Ha). cbn [bind].
    simpl in H.
    destruct (when_present_raises "PASSIVO" "PASSIVO (Liabilities & Equity)"
                "TOTAL PASSIVO" d
                (([Paragraph title_text CustomTitle; Spacer 1 5] ++
                  section_part "ATTIVO" "ATTIVO (Assets)" "TOTAL ATTIVO" d) ++
                 [PageBreak]) H) as [e He].
    rewrite He. raise_now.
  - destruct (when_present_raises "ATTIVO" "ATTIVO (Assets)" "TOTAL ATTIVO" d
                [Paragraph title_text CustomTitle; Spacer 1 5] Ha) as [e He].
    rewrite He. raise_now.
Qed.

Lemma write_to_pdf_inv (d : dict) (els : list flowable) :
  write_to_pdf d = Ok els -> valid d = true /\ els = report_layout d.
Proof.
  intros H. destruct (valid d) eqn:Hv.
  - rewrite (write_to_pdf_valid _ Hv) in H. now inversion H.
  - destruct (write_to_pdf_invalid _ Hv) as [e He]. congruence.
Qed.

(** * Facts about the extractor *)

Lemma open_is_not_close (c : ascii) :
  Ascii.eqb c open_brace = true -> Ascii.eqb c close_brace = false.
Proof.
  intros H. apply Ascii.eqb_eq in H. subst c. reflexivity.
Qed.

Lemma greedy_to_close_last (s : string) :
  greedy_to_close s =
  option_map (fun j => substring 0 (j + 1) s) (find_last close_brace s).
Proof.
  induction s as [|c s IH]; [reflexivity|].
  cbn [greedy_to_close find_last]. rewrite IH.
  destruct (find_last close_brace s) as [j|]; cbn [option_map].
  - reflexivity.
  - destruct (Ascii.eqb c close_brace); cbn [option_map]; [|reflexivity].
    destruct s; reflexivity.
Qed.

Lemma re_search_no_close (s : string) :
  greedy_to_close s = None -> re_search s = None.
Proof.
  induction s as [|c s IH]; simpl.
  - reflexivity.
  - destruct (greedy_to_close s) as [m|]; [discriminate|].
    intros _. rewrite IH by reflexivity.
    destruct (Ascii.eqb c open_brace); reflexivity.
Qed.

(** The regular-expression search finds the span from the first opening
    brace to the last closing brace. *)
Lemma re_search_first_last (s : string) :
  re_search s = span_first_open_last_close s.
Proof.
  induction s as [|c s IH].
  - reflexivity.
  - unfold span_first_open_last_close.
    cbn [re_search match_here find_first find_last].
    destruct (Ascii.eqb c open_brace) eqn:Ho.
    + rewrite (open_is_not_close _ Ho).
      pose proof (greedy_to_close_last s) as Hg.
      destruct (find_last close_brace s) as [j|]; simpl in Hg; rewrite Hg.
      * simpl. reflexivity.
      * apply re_search_no_close. exact Hg.
    + rewrite IH. unfold span_first_open_last_close.
      destruct (find_first open_brace s) as [i|]; simpl; [|reflexivity].
      destruct (find_last close_brace s) as [j|].
      * change (S i <? S j)%nat with (i <? j)%nat.
        destruct (i <? j)%nat; reflexivity.
      * destruct (Ascii.eqb c close_brace); reflexivity.
Qed.

Section Strip.
Variable p : ascii -> bool.
Hypothesis p_open : p open_brace = false.
Hypothesis p_close : p close_brace = false.

Lemma stripped_not_open (c : ascii) : p c = true -> Ascii.eqb c open_brace = false.
Proof.
  intros Hc. destruct (Ascii.eqb c open_brace) eqn:E; [|reflexivity].
  apply Ascii.eqb_eq in E. congruence.
Qed.

Lemma stripped_not_close (c : ascii) : p c = true -> Ascii.eqb c close_brace = false.
Proof.
  intros Hc. destruct (Ascii.eqb c close_brace) eqn:E; [|reflexivity].
  apply Ascii.eqb_eq in E. congruence.
Qed.

Lemma re_search_lstrip (s : string) : re_search (lstrip p s) = re_search s.
Proof.
  induction s as [|c s IH]; [reflexivity|].
  cbn [lstrip]. destruct (p c) eqn:Hc; [|reflexivity].
  rewrite IH. cbn [re_search match_here].
  now rewrite (stripped_not_open _ Hc).
Qed.

Lemma greedy_to_close_rstrip (s : string) :
  greedy_to_close (rstrip p s) = greedy_to_close s.
Proof.
  induction s as [|c s IH]; [reflexivity|].
  cbn [rstrip greedy_to_close]. rewrite <- IH.
  destruct (rstrip p s) as [|a r] eqn:Hr.
  - cbn [greedy_to_close]. destruct (p c) eqn:Hc.
    + now rewrite (stripped_not_close _ Hc).
    + reflexivity.
  - reflexivity.
Qed.

Lemma match_here_rstrip (s : string) :
  match_here (rstrip p s) = match_here s.
Proof.
  destruct s as [|c s]; [reflexivity|].
  cbn [rstrip match_here]. rewrite <- (greedy_to_close_rstrip s).
  destruct (rstrip p s) as [|a r] eqn:Hr.
  - cbn [greedy_to_close]. destruct (p c) eqn:Hc.
    + now rewrite (stripped_not_open _ Hc).
    + cbn [match_here greedy_to_close].
      destruct (Ascii.eqb c open_brace); reflexivity.
  - reflexivity.
Qed.

Lemma re_search_rstrip (s : string) : re_search (rstrip p s) = re_search s.
Proof.
  induction s as [|c s IH]; [reflexivity|].
  assert (Hm := match_here_rstrip (String c s)).
  assert (E : re_search (String c s) =
              match match_here (String c s) with
              | Some m => Some m
              | None => re_search s
              end) by reflexivity.
  rewrite E, <- Hm, <- IH. clear E Hm IH.
  cbn [rstrip]. destruct (rstrip p s) as [|a r] eqn:Hr.
  - destruct (p c); [reflexivity|].
    cbn [re_search match_here greedy_to_close].
    destruct (Ascii.eqb c open_brace); reflexivity.
  - reflexivity.
Qed.

Lemma re_search_strip (s : string) : re_search (strip p s) = re_search s.
Proof.
  unfold strip. now rewrite re_search_rstrip, re_search_lstrip.
Qed.
End Strip.

(** Cleaning removes only quotes and whitespace from the two ends, so it
    does not move the span. *)
Lemma re_search_cleaned (raw : string) :
  re_search (cleaned raw) = re_search raw.
Proof.
  unfold cleaned.
  rewrite !re_search_strip; reflexivity.
Qed.

Lemma greedy_to_close_some (x y : string) :
  greedy_to_close (x ++ String close_brace y)%string <> None.
Proof.
  induction x as [|c x IH]; simpl.
  - destruct (greedy_to_close y); discriminate.
  - destruct (greedy_to_close (x ++ String close_brace y)%string);
      [discriminate | contradiction].
Qed.

Lemma str_all_no_close (s : string) :
  str_all (fun c => negb (Ascii.eqb c close_brace)) s = true ->
  greedy_to_close s = None.
Proof.
  induction s as [|c s IH]; simpl; [reflexivity|].
  intros H. apply andb_true_iff in H as [Hc Hs].
  rewrite (IH Hs). apply negb_true_iff in Hc. now rewrite Hc.
Qed.

Lemma greedy_to_close_exact (mid post : string) :
  greedy_to_close post = None ->
  greedy_to_close (mid ++ String close_brace post)%string =
  Some (mid ++ String close_brace EmptyString)%string.
Proof.
  intros Hp. induction mid as [|c mid IH]; simpl.
  - now rewrite Hp.
  - now rewrite IH.
Qed.

Lemma append_assoc_s (a b c : string) :
  ((a ++ b) ++ c = a ++ (b ++ c))%string.
Proof.
  induction a as [|x a IH]; simpl; [reflexivity | now rewrite IH].
Qed.

Lemma re_search_sandwich (pre mid post : string) :
  str_all (fun c => negb (Ascii.eqb c open_brace)) pre = true ->
  str_all (fun c => negb (Ascii.eqb c close_brace)) post = true ->
  re_search (pre ++ braced mid ++ post)%string = Some (braced mid).
Proof.
  intros Hpre Hpost. induction pre as [|c pre IH].
  - unfold braced. cbn [append re_search match_here].
    rewrite append_assoc_s. cbn [append].
    rewrite (greedy_to_close_exact mid post (str_all_no_close _ Hpost)).
    reflexivity.
  - simpl in Hpre. apply andb_true_iff in Hpre as [Hc Hpre].
    apply negb_true_iff in Hc.
    cbn [append re_search match_here]. rewrite Hc. now apply IH.
Qed.

Lemma re_search_has_span (s : string) :
  has_brace_span s -> re_search s <> None.
Proof.
  intros (a & mid & b & ->). induction a as [|c a IH].
  - unfold braced. cbn [append re_search match_here].
    rewrite append_assoc_s. cbn [append].
    pose proof (greedy_to_close_some mid b) as H.
    destruct (greedy_to_close (mid ++ String close_brace b)%string);
      [discriminate | contradiction].
  - cbn [append re_search]. destruct (match_here _); [discriminate | exact IH].
Qed.

Lemma greedy_to_close_shape (s m : string) :
  greedy_to_close s = Some m ->
  exists mid post, m = (mid ++ String close_brace EmptyString)%string
                   /\ s = (m ++ post)%string.
Proof.
  revert m. induction s as [|c s IH]; simpl; intros m H; [discriminate|].
  destruct (greedy_to_close s) as [m'|] eqn:Hg.
  - inversion H; subst m. destruct (IH _ eq_refl) as (mid & post & Hm & Hs).
    exists (String c mid), post. simpl. split; congruence.
  - destruct (Ascii.eqb c close_brace) eqn:Hc; [|discriminate].
    apply Ascii.eqb_eq in Hc. subst c. inversion H; subst m.
    exists EmptyString, s. split; reflexivity.
Qed.

Lemma re_search_some_span (s m : string) :
  re_search s = Some m -> has_brace_span s.
Proof.
  induction s as [|c s IH]; cbn [re_search match_here]; [discriminate|].
  destruct (Ascii.eqb c open_brace) eqn:Ho.
  - destruct (greedy_to_close s) as [g|] eqn:Hg.
    + intros _. apply Ascii.eqb_eq in Ho. subst c.
      destruct (greedy_to_close_shape _ _ Hg) as (mid & post & Hm & Hs).
      exists EmptyString, mid, post. unfold braced. simpl.
      rewrite append_assoc_s. simpl. rewrite Hs at 1. rewrite Hm.
      rewrite append_assoc_s. reflexivity.
    + rewrite (re_search_no_close _ Hg). discriminate.
  - intros H. destruct (IH H) as (a & mid & b & ->).
    exists (String c a), mid, b. reflexivity.
Qed.

Lemma re_search_none_iff (s : string) :
  re_search s = None <-> ~ has_brace_span s.
Proof.
  split.
  - intros H Hs. exact (re_search_has_span _ Hs H).
  - intros H. destruct (re_search s) as [m|] eqn:E; [|reflexivity].
    exfalso. apply H. eapply re_search_some_span; eauto.
Qed.

(** * The claims about the report *)

Lemma key_ok_shape (key : string) (d : dict) (sec : json) :
  key_ok key d = true -> dict_get key d = Some sec ->
  exists cats, sec = JObj cats /\ section_ok (JObj cats) = true.
Proof.
  unfold key_ok. intros H E. rewrite E in H.
  destruct sec; try discriminate. eauto.
Qed.

Lemma valid_key (key : string) (d : dict) :
  valid d = true -> key = "ATTIVO" \/ key = "PASSIVO" -> key_ok key d = true.
Proof.
  unfold valid. intros H. apply andb_true_iff in H as [Ha Hp].
  intros [-> | ->]; assumption.
Qed.


(** C4 as stated fails: a string amount makes the row formatting raise, and
    no report is produced. *)
Lemma C4_string_amount_raises :
  write_to_pdf
    [("ATTIVO",
      JObj [("B) Software",
             JArr [JObj [("label", JStr "License"); ("amount", JStr "abc")]])])]
  = Raise ValueError_Format
  /\ ~ (exists els,
          write_to_pdf
            [("ATTIVO",
              JObj [("B) Software",
                     JArr [JObj [("label", JStr "License");
                                 ("amount", JStr "abc")]])])]
          = Ok els).
Proof.
  split; [reflexivity|]. intros [els H]. discriminate H.
Qed.

(** C4, amended. A line item of a section that is present, whose amount is
    present and is not a number (a string, null, a list or an object),
    makes the builder raise: no report is produced, and the amount is not
    replaced by zero. *)
Theorem C4_non_numeric_amount_aborts (d : dict) (key : string) (cats : dict)
    (c : string) (items : list json) (kv : dict) (v : json) :
  key = "ATTIVO" \/ key = "PASSIVO" ->
  dict_get key d = Some (JObj cats) ->
  In (c, JArr items) cats ->
  In (JObj kv) items ->
  dict_get "amount" kv = Some v ->
  as_int v = None ->
  raises (write_to_pdf d).
Proof.
  intros Hkey Hd Hc Hi Ha Hv.
  destruct (valid d) eqn:E; [|now apply write_to_pdf_invalid].
  exfalso.
  destruct (key_ok_shape _ _ _ (valid_key _ _ E Hkey) Hd) as (cats' & E' & Hs).
  inversion E'; subst cats'. simpl in Hs.
  apply andb_true_iff in Hs as [Hs _]. apply andb_true_iff in Hs as [Hr _].
  rewrite forallb_forall in Hr. specialize (Hr _ Hc). simpl in Hr.
  unfold cat_renders in Hr.
  destruct items as [|i0 rest]; [contradiction|]. cbn [truthy] in Hr.
  apply andb_true_iff in Hr as [Hr _].
  rewrite forallb_forall in Hr. specialize (Hr _ Hi).
  simpl in Hr. unfold amount_val in Hr. rewrite Ha in Hr.
  destruct v; simpl in Hv; discriminate.
Qed.

Lemma C4_witness :
  raises (write_to_pdf
            [("PASSIVO",
              JObj [("D) Debiti", JArr [line "Banche" 400;
                                        JObj [("label", JStr "Fornitori");
                                              ("amount", JNull)]])])]).
Proof.
  apply (C4_non_numeric_amount_aborts _ "PASSIVO"
           [("D) Debiti", JArr [line "Banche" 400;
                                JObj [("label", JStr "Fornitori");
                                      ("amount", JNull)]])]
           "D) Debiti"
           [line "Banche" 400;
            JObj [("label", JStr "Fornitori"); ("amount", JNull)]]
           [("label", JStr "Fornitori"); ("amount", JNull)] JNull).
  - right. reflexivity.
  - reflexivity.
  - left. reflexivity.
  - right. left. reflexivity.
  - reflexivity.
  - reflexivity.
Defined.

(** C5 as stated fails: a section key that maps to an empty mapping is not
    omitted; its header and a total banner of 0.00 are in the report, which
    therefore differs from the report of a document without the key. *)
Lemma C5_empty_section_is_rendered :
  write_to_pdf [("PASSIVO", JObj [])]
  = Ok [Paragraph title_text CustomTitle; Spacer 1 5; PageBreak;
        Paragraph "PASSIVO (Liabilities & Equity)" SectionTitle;
        Table [[JStr "TOTAL PASSIVO"; JStr "0.00"]] TotalBanner]
  /\ write_to_pdf [("PASSIVO", JObj [])] <> write_to_pdf [].
Proof.
  split; [reflexivity|]. intros H. discriminate H.
Qed.

(** C5, amended. A section key that maps to an empty mapping is rendered
    as the section header followed by a total banner of 0.00, with no
    category tables; this is not an error. *)
Theorem C5_empty_section_header_and_zero_total :
  (forall elements cap tcap,
     render_section elements cap tcap (JObj [])
     = Ok (elements ++ [Paragraph cap SectionTitle;
                        Table [[JStr tcap; JStr "0.00"]] TotalBanner]))
  /\ (forall d els,
        write_to_pdf d = Ok els ->
        dict_get "ATTIVO" d = Some (JObj []) ->
        els = title_part
              ++ [Paragraph "ATTIVO (Assets)" SectionTitle;
                  Table [[JStr "TOTAL ATTIVO"; JStr "0.00"]] TotalBanner;
                  PageBreak]
              ++ passivo_part d)
  /\ (forall d els,
        write_to_pdf d = Ok els ->
        dict_get "PASSIVO" d = Some (JObj []) ->
        els = title_part ++ attivo_part d
              ++ [PageBreak;
                  Paragraph "PASSIVO (Liabilities & Equity)" SectionTitle;
                  Table [[JStr "TOTAL PASSIVO"; JStr "0.00"]] TotalBanner]).
Proof.
  split.
  { intros. unfold render_section. simpl. now rewrite <- app_assoc. }
  split.
  - intros d els H Hd. destruct (write_to_pdf_inv _ _ H) as [_ ->].
    unfold report_layout, attivo_part, section_part. rewrite Hd. reflexivity.
  - intros d els H Hd. destruct (write_to_pdf_inv _ _ H) as [_ ->].
    unfold report_layout, passivo_part, section_part. rewrite Hd. reflexivity.
Qed.

Lemma C5_witness :
  write_to_pdf [("ATTIVO", JObj []); ("PASSIVO", JObj [])]
  = Ok (title_part
        ++ [Paragraph "ATTIVO (Assets)" SectionTitle;
            Table [[JStr "TOTAL ATTIVO"; JStr "0.00"]] TotalBanner;
            PageBreak]
        ++ passivo_part [("ATTIVO", JObj []); ("PASSIVO", JObj [])]).
Proof.
  destruct C5_empty_section_header_and_zero_total as (_ & H & _).
  rewrite <- (H [("ATTIVO", JObj []); ("PASSIVO", JObj [])] _ eq_refl eq_refl).
  reflexivity.
Defined.

Lemma render_categories_app (pre post : dict) : forall elements,
  render_categories elements (pre ++ post) =
  (els <- render_categories elements pre ;; render_categories els post).
Proof.
  induction pre as [|[c items] pre IH]; intros els; simpl; [reflexivity|].
  destruct (render_category els c items); simpl; [apply IH | reflexivity].
Qed.

Lemma total_loop_app (pre post : dict) : forall total,
  total_loop total (pre ++ post) =
  (t <- total_loop total pre ;; total_loop t post).
Proof.
  induction pre as [|[c items] pre IH]; intros t; simpl; [reflexivity|].
  destruct (sum_amounts items); simpl; [apply IH | reflexivity].
Qed.

Lemma render_section_skips_empty (elements : list flowable)
    (cap tcap c : string) (pre post : dict) :
  render_section elements cap tcap (JObj (pre ++ (c, JArr []) :: post)) =
  render_section elements cap tcap (JObj (pre ++ post)).
Proof.
  unfold render_section. simpl py_items. cbn [bind].
  rewrite !render_categories_app, !total_loop_app.
  destruct (render_categories _ pre) as [els|e]; simpl; [|reflexivity].
  destruct (render_categories els post) as [els'|e]; simpl; [|reflexivity].
  destruct (total_loop 0 pre) as [t|e]; simpl; [|reflexivity].
  now rewrite Z.add_0_r.
Qed.

(** C6 as stated fails: a category with zero line items is not rendered;
    the report has no category table at all. *)
Lemma C6_empty_category_is_dropped :
  write_to_pdf [("ATTIVO", JObj [("C) Attivo circolante", JArr [])])]
  = Ok [Paragraph title_text CustomTitle; Spacer 1 5;
        Paragraph "ATTIVO (Assets)" SectionTitle;
        Table [[JStr "TOTAL ATTIVO"; JStr "0.00"]] TotalBanner;
        PageBreak]
  /\ ~ (exists els data,
          write_to_pdf [("ATTIVO", JObj [("C) Attivo circolante", JArr [])])]
          = Ok els
          /\ In (Table data CategoryTable) els).
Proof.
  split; [reflexivity|].
  intros (els & data & H & Hin). inversion H; subst els. clear H.
  simpl in Hin.
  repeat (destruct Hin as [Hin | Hin]; [discriminate Hin|]). exact Hin.
Qed.

(** C6, amended. A category that is present with zero line items is
    skipped by the builder: nothing is emitted for it (no header, no
    table, no subtotal row), it adds exactly 0 to the section total, and
    the section is rendered as if the category were absent. *)
Theorem C6_empty_category_skipped (c : string) :
  (forall elements, render_category elements c (JArr []) = Ok elements)
  /\ sum_amounts (JArr []) = Ok 0
  /\ (forall elements cap tcap pre post,
        render_section elements cap tcap (JObj (pre ++ (c, JArr []) :: post))
        = render_section elements cap tcap (JObj (pre ++ post)))
  /\ (forall pre post,
        write_to_pdf [("ATTIVO", JObj (pre ++ (c, JArr []) :: post))]
        = write_to_pdf [("ATTIVO", JObj (pre ++ post))])
  /\ (forall pre post,
        write_to_pdf [("PASSIVO", JObj (pre ++ (c, JArr []) :: post))]
        = write_to_pdf [("PASSIVO", JObj (pre ++ post))]).
Proof.
  split; [reflexivity|]. split; [reflexivity|]. split.
  - intros. apply render_section_skips_empty.
  - split; intros pre post; unfold write_to_pdf, when_present;
      cbn [dict_get String.eqb Ascii.eqb Bool.eqb bind];
      now rewrite render_section_skips_empty.
Qed.







Lemma no_break_in_section (cap tcap : string) (cats : dict) :
  filter is_page_break (section_block cap tcap cats) = [].
Proof.
  unfold section_block. simpl. rewrite filter_app. simpl.
  rewrite app_nil_r.
  induction cats as [|[c items] cats IH]; simpl; [reflexivity|].
  rewrite filter_app, IH, app_nil_r.
  unfold category_block. destruct (truthy items); reflexivity.
Qed.

Lemma no_break_in_part (key cap tcap : string) (d : dict) :
  filter is_page_break (section_part key cap tcap d) = [].
Proof.
  unfold section_part. destruct (dict_get key d) as [[]|]; try reflexivity.
  apply no_break_in_section.
Qed.

(** C8. Every report the builder produces has exactly one page break; it
    stands after the title and the ATTIVO part and before the PASSIVO part,
    whether or not either section is present or empty. *)
Theorem C8_exactly_one_page_break (d : dict) (els : list flowable) :
  write_to_pdf d = Ok els ->
  count_page_breaks els = 1%nat
  /\ els = (title_part ++ attivo_part d) ++ [PageBreak] ++ passivo_part d
  /\ count_page_breaks (title_part ++ attivo_part d) = 0%nat
  /\ count_page_breaks (passivo_part d) = 0%nat.
Proof.
  intros H. destruct (write_to_pdf_inv _ _ H) as [_ ->].
  unfold count_page_breaks, report_layout, attivo_part, passivo_part.
  rewrite <- !app_assoc, !filter_app, !no_break_in_part.
  repeat split.
Qed.

Lemma C8_witness :
  count_page_breaks (report_layout doc_two_sections) = 1%nat.
Proof.
  exact (proj1 (C8_exactly_one_page_break doc_two_sections
                  (report_layout doc_two_sections) eq_refl)).
Defined.

(** C10. Only the values under the exact keys ATTIVO and PASSIVO reach the
    report: two documents that agree on these two keys give the same
    result, and a document with neither key (whatever other spellings it
    has) gives the title, its spacer and the page break, nothing else. *)
Theorem C10_exact_section_keys :
  (forall d d',
     dict_get "ATTIVO" d = dict_get "ATTIVO" d' ->
     dict_get "PASSIVO" d = dict_get "PASSIVO" d' ->
     write_to_pdf d = write_to_pdf d')
  /\ (forall d,
        dict_has "ATTIVO" d = false ->
        dict_has "PASSIVO" d = false ->
        write_to_pdf d
        = Ok [Paragraph title_text CustomTitle; Spacer 1 5; PageBreak]).
Proof.
  split.
  - intros d d' Ha Hp. unfold write_to_pdf, when_present.
    now rewrite Ha, Hp.
  - intros d Ha Hp. apply dict_has_get in Ha. apply dict_has_get in Hp.
    unfold write_to_pdf, when_present. now rewrite Ha, Hp.
Qed.

Lemma C10_witness :
  write_to_pdf
    [("attivo", JObj [("B) Software", JArr [line "License" 3041])]);
     ("Assets", JObj [("B) Software", JArr [line "License" 3041])]);
     ("Passivo", JObj [])]
  = Ok [Paragraph title_text CustomTitle; Spacer 1 5; PageBreak].
Proof.
  apply (proj2 C10_exact_section_keys); reflexivity.
Defined.

(** * The claims about the extractor *)

Lemma str_all_weaken (p q : ascii -> bool) (s : string) :
  (forall c, p c = true -> q c = true) ->
  str_all p s = true -> str_all q s = true.
Proof.
  intros Hpq. induction s as [|c s IH]; simpl; [reflexivity|].
  intros H. apply andb_true_iff in H as [Hc Hs].
  now rewrite (Hpq _ Hc), (IH Hs).
Qed.

Lemma not_brace_open (c : ascii) :
  not_brace c = true -> negb (Ascii.eqb c open_brace) = true.
Proof. unfold not_brace. intros H. now apply andb_true_iff in H as [H _]. Qed.

Lemma not_brace_close (c : ascii) :
  not_brace c = true -> negb (Ascii.eqb c close_brace) = true.
Proof. unfold not_brace. intros H. now apply andb_true_iff in H as [_ H]. Qed.

Lemma re_search_unclosed (pre post : string) :
  str_all (fun c => negb (Ascii.eqb c open_brace)) pre = true ->
  str_all (fun c => negb (Ascii.eqb c close_brace)) post = true ->
  re_search (pre ++ String open_brace post)%string = None.
Proof.
  intros Hpre Hpost. induction pre as [|c pre IH].
  - cbn [append re_search match_here].
    rewrite (str_all_no_close _ Hpost). simpl.
    apply re_search_no_close, str_all_no_close, Hpost.
  - simpl in Hpre. apply andb_true_iff in Hpre as [Hc Hpre].
    apply negb_true_iff in Hc.
    cbn [append re_search match_here]. rewrite Hc. now apply IH.
Qed.

(** C2. The text handed to the parser is the span from the first opening
    brace to the last closing brace of the cleaned text; and when the
    input is one well-formed object with brace-free text around it, that
    span is the object and [extract_json] returns what the parser makes of
    it, unchanged. *)
Theorem C2_extract_single_object (loads : string -> option dict)
    (raw : string) :
  extract_json loads raw =
    match span_first_open_last_close (cleaned raw) with
    | Some span =>
        match loads span with
        | Some d => Ok d
        | None => Raise JSONDecodeError
        end
    | None => Raise ValueError_NoJSON
    end
  /\ forall pre mid post d,
       raw = (pre ++ braced mid ++ post)%string ->
       str_all not_brace pre = true ->
       str_all not_brace post = true ->
       loads (braced mid) = Some d ->
       span_first_open_last_close (cleaned raw) = Some (braced mid)
       /\ extract_json loads raw = Ok d.
Proof.
  split.
  - unfold extract_json. now rewrite re_search_first_last.
  - intros pre mid post d -> Hpre Hpost Hl.
    assert (Hs : re_search (cleaned (pre ++ braced mid ++ post)%string)
                 = Some (braced mid)).
    { rewrite re_search_cleaned. apply re_search_sandwich.
      - exact (str_all_weaken _ _ _ not_brace_open Hpre).
      - exact (str_all_weaken _ _ _ not_brace_close Hpost). }
    split.
    + now rewrite <- re_search_first_last.
    + unfold extract_json. now rewrite Hs, Hl.
Qed.

Lemma C2_witness :
  extract_json (loads_only passivo_only_text [("PASSIVO", JObj [])])
    commented_response
  = Ok [("PASSIVO", JObj [])].
Proof.
  apply (proj2 (C2_extract_single_object
                  (loads_only passivo_only_text [("PASSIVO", JObj [])])
                  commented_response)
           "Here is the result: " (quoted "PASSIVO" ++ ": {}")%string
           (String newline "Thanks") [("PASSIVO", JObj [])]);
    reflexivity.
Defined.

(** C3. [extract_json] raises exactly when the input has no opening brace
    followed by a closing brace, or when the located span is rejected by
    the parser.  The first case raises ValueError, the second
    JSONDecodeError (a ValueError); an opening brace with no closing brace
    after it is of the first kind.  When it raises, the conversion raises
    the same exception: no document reaches the report builder. *)
Theorem C3_extract_failures (loads : string -> option dict) (raw : string) :
  (raises (extract_json loads raw) <->
   (~ has_brace_span raw
    \/ exists span,
         span_first_open_last_close (cleaned raw) = Some span
         /\ loads span = None))
  /\ (~ has_brace_span raw ->
      extract_json loads raw = Raise ValueError_NoJSON)
  /\ (forall span,
        span_first_open_last_close (cleaned raw) = Some span ->
        loads span = None ->
        extract_json loads raw = Raise JSONDecodeError)
  /\ (forall pre post,
        raw = (pre ++ String open_brace post)%string ->
        str_all (fun c => negb (Ascii.eqb c open_brace)) pre = true ->
        str_all (fun c => negb (Ascii.eqb c close_brace)) post = true ->
        extract_json loads raw = Raise ValueError_NoJSON)
  /\ (forall e,
        extract_json loads raw = Raise e -> convert loads raw = Raise e).
Proof.
  assert (Hnone : ~ has_brace_span raw ->
                  extract_json loads raw = Raise ValueError_NoJSON).
  { intros H. apply re_search_none_iff in H.
    unfold extract_json. now rewrite re_search_cleaned, H. }
  assert (Hbad : forall span,
             span_first_open_last_close (cleaned raw) = Some span ->
             loads span = None ->
             extract_json loads raw = Raise JSONDecodeError).
  { intros span Hs Hl. unfold extract_json.
    now rewrite re_search_first_last, Hs, Hl. }
  split; [|split; [exact Hnone | split; [exact Hbad | split]]].
  - split.
    + intros [e He]. unfold extract_json in He.
      rewrite re_search_first_last in He.
      destruct (span_first_open_last_close (cleaned raw)) as [span|] eqn:Hs.
      * right. exists span. split; [reflexivity|].
        destruct (loads span); [discriminate | reflexivity].
      * left. apply re_search_none_iff.
        now rewrite <- re_search_cleaned, re_search_first_last.
    + intros [H | (span & Hs & Hl)].
      * eexists. apply Hnone, H.
      * eexists. eapply Hbad; eauto.
  - intros pre post -> Hpre Hpost. apply Hnone, re_search_none_iff.
    now apply re_search_unclosed.
  - intros e He. unfold convert. now rewrite He.
Qed.

Lemma C3_witness :
  extract_json (loads_only passivo_only_text [("PASSIVO", JObj [])])
    ("Here is the result: " ++ String open_brace " and no closing brace")%string
  = Raise ValueError_NoJSON.
Proof.
  destruct (C3_extract_failures
              (loads_only passivo_only_text [("PASSIVO", JObj [])])
              ("Here is the result: "
               ++ String open_brace " and no closing brace")%string)
    as (_ & _ & _ & H & _).
  apply (H "Here is the result: " " and no closing brace"); reflexivity.
Defined.

(** The commented response of the description, end to end: the empty
    PASSIVO section is rendered as its header and a total of 0.00. *)
Example convert_commented_response :
  convert (loads_only passivo_only_text [("PASSIVO", JObj [])])
    commented_response
  = Ok [Paragraph title_text CustomTitle; Spacer 1 5; PageBreak;
        Paragraph "PASSIVO (Liabilities & Equity)" SectionTitle;
        Table [[JStr "TOTAL PASSIVO"; JStr "0.00"]] TotalBanner].
Proof. reflexivity. Qed.

(** * Further properties of the extractor *)

Lemma append_nil_r_s (s : string) : (s ++ EmptyString)%string = s.
Proof. induction s as [|c s IH]; simpl; [reflexivity | now rewrite IH]. Qed.

Lemma re_search_skip_prefix (pre t : string) :
  no_open pre = true -> re_search (pre ++ t)%string = re_search t.
Proof.
  unfold no_open. induction pre as [|c pre IH]; simpl str_all; intros H.
  - reflexivity.
  - apply andb_true_iff in H as [Hc Hpre]. apply negb_true_iff in Hc.
    cbn [append re_search match_here]. rewrite Hc. now apply IH.
Qed.

Lemma greedy_to_close_suffix (s post : string) :
  no_close post = true ->
  greedy_to_close (s ++ post)%string = greedy_to_close s.
Proof.
  intros Hp. induction s as [|c s IH].
  - simpl. now apply str_all_no_close.
  - cbn [append greedy_to_close]. now rewrite IH.
Qed.

Lemma re_search_skip_suffix (s post : string) :
  no_close post = true -> re_search (s ++ post)%string = re_search s.
Proof.
  intros Hp. induction s as [|c s IH].
  - simpl append. apply re_search_no_close. now apply str_all_no_close.
  - cbn [append re_search match_here].
    rewrite (greedy_to_close_suffix s post Hp), IH. reflexivity.
Qed.

Lemma str_all_app (p : ascii -> bool) (a b : string) :
  str_all p (a ++ b)%string = str_all p a && str_all p b.
Proof.
  induction a as [|c a IH]; simpl; [reflexivity|].
  now rewrite IH, andb_assoc.
Qed.

Lemma greedy_to_close_split (s m : string) :
  greedy_to_close s = Some m ->
  exists mid post,
    m = (mid ++ String close_brace EmptyString)%string
    /\ s = (m ++ post)%string /\ no_close post = true.
Proof.
  revert m. induction s as [|c s IH]; simpl; intros m H; [discriminate|].
  destruct (greedy_to_close s) as [m'|] eqn:Hg.
  - inversion H; subst m.
    destruct (IH _ eq_refl) as (mid & post & Hm & Hs & Hp).
    exists (String c mid), post. simpl. repeat split; congruence.
  - destruct (Ascii.eqb c close_brace) eqn:Hc; [|discriminate].
    apply Ascii.eqb_eq in Hc. subst c. inversion H; subst m.
    exists EmptyString, s. repeat split.
    clear IH H. unfold no_close.
    induction s as [|a s IHs]; simpl in *; [reflexivity|].
    destruct (greedy_to_close s); [discriminate|].
    destruct (Ascii.eqb a close_brace); [discriminate|].
    simpl. now apply IHs.
Qed.

Lemma re_search_split (s m : string) :
  re_search s = Some m ->
  exists pre mid post,
    s = (pre ++ braced mid ++ post)%string /\ m = braced mid
    /\ no_open pre = true /\ no_close post = true.
Proof.
  induction s as [|c s IH]; cbn [re_search match_here]; [discriminate|].
  destruct (Ascii.eqb c open_brace) eqn:Ho.
  - destruct (greedy_to_close s) as [g|] eqn:Hg.
    + intros H. inversion H; subst m. clear H.
      apply Ascii.eqb_eq in Ho. subst c.
      destruct (greedy_to_close_split _ _ Hg) as (mid & post & Hm & Hs & Hp).
      exists EmptyString, mid, post. unfold braced. simpl.
      rewrite append_assoc_s. simpl.
      repeat split; try assumption.
      * rewrite Hs at 1. rewrite Hm, append_assoc_s. reflexivity.
      * now rewrite Hm.
    + rewrite (re_search_no_close _ Hg). discriminate.
  - intros H. destruct (IH H) as (pre & mid & post & -> & Hm & Hpre & Hp).
    exists (String c pre), mid, post. repeat split; try assumption.
    unfold no_open. simpl. rewrite Ho. exact Hpre.
Qed.

(** X1. Whatever stands before the first opening brace and after the last
    closing brace has no influence: text without an opening brace put in
    front, and text without a closing brace put behind, leave the result of
    [extract_json] unchanged. *)
Theorem X1_extract_ignores_surroundings (loads : string -> option dict)
    (pre s post : string) :
  no_open pre = true ->
  no_close post = true ->
  extract_json loads (pre ++ s ++ post)%string = extract_json loads s.
Proof.
  intros Hpre Hpost. unfold extract_json.
  rewrite !re_search_cleaned.
  now rewrite (re_search_skip_prefix pre _ Hpre), (re_search_skip_suffix s _ Hpost).
Qed.

Lemma X1_witness :
  extract_json (loads_only passivo_only_text [("PASSIVO", JObj [])])
    ("Sure! } " ++ passivo_only_text ++ " { done")%string
  = extract_json (loads_only passivo_only_text [("PASSIVO", JObj [])])
      passivo_only_text.
Proof.
  apply (X1_extract_ignores_surroundings _ "Sure! } " passivo_only_text
           " { done"); reflexivity.
Defined.

(** X2. Two objects in one response are not told apart: the text parsed is
    the first object, the text between, and the second object, as one
    span. *)
Theorem X2_two_objects_one_span (loads : string -> option dict)
    (pre a between b post : string) :
  no_open pre = true ->
  no_close post = true ->
  re_search (cleaned (pre ++ braced a ++ between ++ braced b ++ post)%string)
  = Some (braced a ++ between ++ braced b)%string
  /\ extract_json loads (pre ++ braced a ++ between ++ braced b ++ post)%string
     = match loads (braced a ++ between ++ braced b)%string with
       | Some d => Ok d
       | None => Raise JSONDecodeError
       end.
Proof.
  intros Hpre Hpost.
  assert (E : (braced a ++ between ++ braced b)%string
              = braced (a ++ String close_brace between
                          ++ String open_brace b)%string).
  { unfold braced. simpl. f_equal.
    rewrite !append_assoc_s. simpl. rewrite !append_assoc_s. reflexivity. }
  assert (Hs : re_search
                 (cleaned (pre ++ braced a ++ between ++ braced b ++ post)%string)
               = Some (braced a ++ between ++ braced b)%string).
  { rewrite re_search_cleaned.
    replace (pre ++ braced a ++ between ++ braced b ++ post)%string
      with (pre ++ (braced a ++ between ++ braced b) ++ post)%string
      by (now rewrite !append_assoc_s).
    rewrite E. now apply re_search_sandwich. }
  split; [exact Hs|]. unfold extract_json. now rewrite Hs.
Qed.

Lemma X2_witness :
  re_search (cleaned ("first " ++ braced "a" ++ " then " ++ braced "b" ++ ".")%string)
  = Some (braced "a" ++ " then " ++ braced "b")%string.
Proof.
  apply (X2_two_objects_one_span (fun _ => None) "first " "a" " then " "b" ".");
    reflexivity.
Defined.

(** X3. The span found in a response is characterised by its position: it
    is a piece of the response that starts with an opening brace and ends
    with a closing brace, with no opening brace before it and no closing
    brace after it.  Searching the span again finds the span itself. *)
Theorem X3_span_characterised (raw m : string) :
  (re_search (cleaned raw) = Some m <->
   exists pre mid post,
     raw = (pre ++ braced mid ++ post)%string /\ m = braced mid
     /\ no_open pre = true /\ no_close post = true)
  /\ (re_search (cleaned raw) = Some m -> re_search m = Some m).
Proof.
  rewrite re_search_cleaned.
  assert (Hfwd : re_search raw = Some m ->
                 exists pre mid post,
                   raw = (pre ++ braced mid ++ post)%string /\ m = braced mid
                   /\ no_open pre = true /\ no_close post = true)
    by apply re_search_split.
  split; [split; [exact Hfwd|]|].
  - intros (pre & mid & post & -> & -> & Hpre & Hpost).
    now apply re_search_sandwich.
  - intros H. destruct (Hfwd H) as (pre & mid & post & _ & -> & _ & _).
    pose proof (re_search_sandwich EmptyString mid EmptyString eq_refl eq_refl)
      as E.
    simpl append in E. now rewrite append_nil_r_s in E.
Qed.

Lemma X3_witness :
  re_search (braced "a} and {b") = Some (braced "a} and {b").
Proof.
  apply (proj2 (X3_span_characterised
                  ("see " ++ braced "a} and {b" ++ " ok")%string
                  (braced "a} and {b"))).
  reflexivity.
Defined.

(** ** The cleaning step *)

Lemma lstrip_decomp (p : ascii -> bool) (s : string) :
  exists l, s = (l ++ lstrip p s)%string /\ str_all p l = true.
Proof.
  induction s as [|c s (l & Hs & Hl)].
  - exists EmptyString. split; reflexivity.
  - simpl. destruct (p c) eqn:Hc.
    + exists (String c l). simpl. rewrite Hc, Hl. split; [congruence | reflexivity].
    + exists EmptyString. split; reflexivity.
Qed.

Lemma rstrip_decomp (p : ascii -> bool) (s : string) :
  exists r, s = (rstrip p s ++ r)%string /\ str_all p r = true.
Proof.
  induction s as [|c s (r & Hs & Hr)].
  - exists EmptyString. split; reflexivity.
  - simpl. destruct (rstrip p s) as [|a t] eqn:E.
    + simpl in Hs. subst r. destruct (p c) eqn:Hc.
      * exists (String c s). simpl. rewrite Hc, Hr. split; reflexivity.
      * exists s. split; [reflexivity | exact Hr].
    + exists r. simpl in Hs |- *. split; [congruence | exact Hr].
Qed.

Lemma strip_decomp (p q : ascii -> bool) (s : string) :
  (forall c, p c = true -> q c = true) ->
  exists l r, s = (l ++ strip p s ++ r)%string
              /\ str_all q l = true /\ str_all q r = true.
Proof.
  intros Hpq. unfold strip.
  destruct (lstrip_decomp p s) as (l & Hs & Hl).
  destruct (rstrip_decomp p (lstrip p s)) as (r & Ht & Hr).
  exists l, r. split; [|split].
  - rewrite <- Ht. exact Hs.
  - exact (str_all_weaken _ _ _ Hpq Hl).
  - exact (str_all_weaken _ _ _ Hpq Hr).
Qed.

Lemma first_char_lstrip (p : ascii -> bool) (s : string) :
  first_char_is p (lstrip p s) = false.
Proof.
  induction s as [|c s IH]; simpl; [reflexivity|].
  destruct (p c) eqn:Hc; [exact IH | simpl; exact Hc].
Qed.

Lemma first_char_rstrip (p : ascii -> bool) (s : string) :
  first_char_is p s = false -> first_char_is p (rstrip p s) = false.
Proof.
  destruct s as [|c s]; simpl; [reflexivity|]. intros Hc.
  destruct (rstrip p s); [rewrite Hc|]; simpl; auto.
Qed.

Lemma last_char_rstrip (p : ascii -> bool) (s : string) :
  last_char_is p (rstrip p s) = false.
Proof.
  induction s as [|c s IH]; simpl; [reflexivity|].
  destruct (rstrip p s) as [|a t] eqn:E.
  - destruct (p c) eqn:Hc; simpl; [reflexivity | exact Hc].
  - exact IH.
Qed.

Lemma lstrip_id (p : ascii -> bool) (s : string) :
  first_char_is (fun c => negb (p c)) s = true -> lstrip p s = s.
Proof.
  destruct s as [|c s]; simpl; [discriminate|].
  intros H. apply negb_true_iff in H. now rewrite H.
Qed.

Lemma rstrip_id (p : ascii -> bool) (s : string) :
  last_char_is (fun c => negb (p c)) s = true -> rstrip p s = s.
Proof.
  induction s as [|c s IH]; [discriminate|].
  destruct s as [|a t].
  - simpl. intros H. apply negb_true_iff in H. now rewrite H.
  - intros H. change (last_char_is (fun c => negb (p c)) (String a t) = true) in H.
    cbn [rstrip]. cbn [rstrip] in IH. rewrite (IH H). reflexivity.
Qed.

Lemma first_char_weaken (p q : ascii -> bool) (s : string) :
  (forall c, p c = true -> q c = true) ->
  first_char_is p s = true -> first_char_is q s = true.
Proof. intros Hpq. destruct s; simpl; [discriminate | apply Hpq]. Qed.

Lemma last_char_weaken (p q : ascii -> bool) (s : string) :
  (forall c, p c = true -> q c = true) ->
  last_char_is p s = true -> last_char_is q s = true.
Proof.
  intros Hpq. induction s as [|c s IH]; [discriminate|].
  destruct s as [|a t]; [apply Hpq | exact IH].
Qed.

(** X4. Cleaning only takes characters away from the two ends, and only
    single quotes, double quotes and whitespace: the response is the
    cleaned text with such characters before and after it.  The cleaned
    text neither starts nor ends with whitespace. *)
Theorem X4_cleaned_trims_ends_only (raw : string) :
  (exists l r,
     raw = (l ++ cleaned raw ++ r)%string
     /\ str_all is_quote_or_space l = true
     /\ str_all is_quote_or_space r = true)
  /\ first_char_is isspace (cleaned raw) = false
  /\ last_char_is isspace (cleaned raw) = false.
Proof.
  split; [|split].
  - unfold cleaned.
    destruct (strip_decomp (Ascii.eqb squote) is_quote_or_space raw)
      as (l1 & r1 & E1 & Hl1 & Hr1).
    { intros c H. unfold is_quote_or_space. now rewrite H. }
    set (s1 := strip (Ascii.eqb squote) raw) in *.
    destruct (strip_decomp (Ascii.eqb dquote) is_quote_or_space s1)
      as (l2 & r2 & E2 & Hl2 & Hr2).
    { intros c H. unfold is_quote_or_space. rewrite H. now rewrite orb_true_r. }
    set (s2 := strip (Ascii.eqb dquote) s1) in *.
    destruct (strip_decomp isspace is_quote_or_space s2)
      as (l3 & r3 & E3 & Hl3 & Hr3).
    { intros c H. unfold is_quote_or_space. rewrite H. now rewrite orb_true_r. }
    set (s3 := strip isspace s2) in *.
    exists (l1 ++ l2 ++ l3)%string, (r3 ++ r2 ++ r1)%string.
    split; [|split].
    + rewrite E1 at 1. rewrite E2 at 1. rewrite E3 at 1.
      now rewrite !append_assoc_s.
    + now rewrite !str_all_app, Hl1, Hl2, Hl3.
    + now rewrite !str_all_app, Hr1, Hr2, Hr3.
  - unfold cleaned, strip at 1.
    apply first_char_rstrip, first_char_lstrip.
  - unfold cleaned, strip at 1. apply last_char_rstrip.
Qed.

(** X5. The quotes are stripped before the whitespace: when the response
    starts and ends with a character that is not a quote (a space or a
    newline around a quoted block, say), no quote is removed and cleaning
    is whitespace stripping alone. *)
Theorem X5_quotes_behind_whitespace_stay (raw : string) :
  first_char_is not_quote raw = true ->
  last_char_is not_quote raw = true ->
  cleaned raw = strip isspace raw.
Proof.
  intros Hf Hl. unfold cleaned.
  assert (E1 : strip (Ascii.eqb squote) raw = raw).
  { unfold strip. rewrite lstrip_id.
    - apply rstrip_id. revert Hl. apply last_char_weaken.
      intros c H. unfold not_quote in H. now apply andb_true_iff in H as [H _].
    - revert Hf. apply first_char_weaken.
      intros c H. unfold not_quote in H. now apply andb_true_iff in H as [H _]. }
  rewrite E1.
  assert (E2 : strip (Ascii.eqb dquote) raw = raw).
  { unfold strip. rewrite lstrip_id.
    - apply rstrip_id. revert Hl. apply last_char_weaken.
      intros c H. unfold not_quote in H. now apply andb_true_iff in H as [_ H].
    - revert Hf. apply first_char_weaken.
      intros c H. unfold not_quote in H. now apply andb_true_iff in H as [_ H]. }
  now rewrite E2.
Qed.

Lemma X5_witness :
  cleaned (String newline ("'''" ++ passivo_only_text ++ "'''"
                           ++ String newline EmptyString))%string
  = ("'''" ++ passivo_only_text ++ "'''")%string.
Proof.
  rewrite (X5_quotes_behind_whitespace_stay
             (String newline ("'''" ++ passivo_only_text ++ "'''"
                              ++ String newline EmptyString))%string
             eq_refl eq_refl).
  reflexivity.
Defined.

(** * Further properties of the report builder *)

Lemma cat_sums_shape (v : json) :
  cat_sums v = true ->
  (exists l, v = JArr l /\ Forall (fun it => is_dict it = true) l)
  \/ v = JObj [] \/ v = JStr EmptyString.
Proof.
  destruct v as [| | |s|l|kv]; simpl; try discriminate.
  - destruct s; [auto | discriminate].
  - intros H. left. exists l. split; [reflexivity|].
    rewrite forallb_forall in H. apply Forall_forall. intros x Hx.
    specialize (H x Hx). destruct x; simpl in *; congruence.
  - destruct kv; [auto | discriminate].
Qed.

Lemma valid_category (d : dict) (key : string) (cats : dict) (c : string)
    (v : json) :
  valid d = true ->
  key = "ATTIVO" \/ key = "PASSIVO" ->
  dict_get key d = Some (JObj cats) ->
  In (c, v) cats ->
  cat_renders v = true /\ cat_sums v = true.
Proof.
  intros Hv Hkey Hd Hin.
  destruct (key_ok_shape _ _ _ (valid_key _ _ Hv Hkey) Hd) as (cats' & E & Hs).
  inversion E; subst cats'. simpl in Hs.
  apply andb_true_iff in Hs as [Hs _]. apply andb_true_iff in Hs as [Hr Hs].
  rewrite forallb_forall in Hr, Hs.
  split; [exact (Hr _ Hin) | exact (Hs _ Hin)].
Qed.

(** X7. In a report that was produced, every category of a present section
    is a list of objects, an empty object or an empty string.  A category
    that is null, a number or a boolean makes the builder raise, also when
    it is falsy and skipped by the rendering loop: the total loop iterates
    it all the same. *)
Theorem X7_category_values (d : dict) (key : string) (cats : dict)
    (c : string) (v : json) :
  key = "ATTIVO" \/ key = "PASSIVO" ->
  dict_get key d = Some (JObj cats) ->
  In (c, v) cats ->
  (forall els, write_to_pdf d = Ok els ->
     (exists l, v = JArr l /\ Forall (fun it => is_dict it = true) l)
     \/ v = JObj [] \/ v = JStr EmptyString)
  /\ (v = JNull \/ (exists b, v = JBool b) \/ (exists n, v = JInt n) ->
      raises (write_to_pdf d)).
Proof.
  intros Hkey Hd Hin. split.
  - intros els H. destruct (write_to_pdf_inv _ _ H) as [Hv _].
    apply cat_sums_shape. exact (proj2 (valid_category _ _ _ _ _ Hv Hkey Hd Hin)).
  - intros Hbad. destruct (valid d) eqn:Hv; [|now apply write_to_pdf_invalid].
    exfalso. pose proof (proj2 (valid_category _ _ _ _ _ Hv Hkey Hd Hin)) as Hs.
    destruct Hbad as [-> | [[b ->] | [n ->]]]; discriminate Hs.
Qed.

Lemma X7_witness :
  raises (write_to_pdf
            [("ATTIVO", JObj [("A) Crediti", JArr [line "Soci" 10]);
                              ("B) Immobilizzazioni", JNull)])]).
Proof.
  apply (proj2 (X7_category_values
                  [("ATTIVO", JObj [("A) Crediti", JArr [line "Soci" 10]);
                                    ("B) Immobilizzazioni", JNull)])]
                  "ATTIVO"
                  [("A) Crediti", JArr [line "Soci" 10]);
                   ("B) Immobilizzazioni", JNull)]
                  "B) Immobilizzazioni" JNull
                  (or_introl eq_refl) eq_refl
                  (or_intror (or_introl eq_refl)))).
  left. reflexivity.
Defined.

(** X8. A section whose value is not a mapping stops the builder with
    AttributeError, at the call of [items]: for ATTIVO always, for PASSIVO
    when the ATTIVO key is absent; in every case no report is produced. *)
Theorem X8_section_must_be_mapping (d : dict) (v : json) :
  is_dict v = false ->
  (dict_get "ATTIVO" d = Some v -> write_to_pdf d = Raise AttributeError)
  /\ (dict_get "PASSIVO" d = Some v -> dict_get "ATTIVO" d = None ->
      write_to_pdf d = Raise AttributeError)
  /\ (dict_get "PASSIVO" d = Some v -> raises (write_to_pdf d)).
Proof.
  intros Hv. split; [|split].
  - intros Hd. unfold write_to_pdf, when_present. rewrite Hd.
    destruct v; try discriminate; reflexivity.
  - intros Hp Ha. unfold write_to_pdf, when_present. rewrite Ha, Hp.
    destruct v; try discriminate; reflexivity.
  - intros Hp. apply write_to_pdf_invalid. unfold valid, key_ok. rewrite Hp.
    destruct v; try discriminate; apply andb_false_r.
Qed.

Lemma X8_witness :
  write_to_pdf [("ATTIVO", JArr [line "Software" 3041])]
  = Raise AttributeError.
Proof.
  apply (proj1 (X8_section_must_be_mapping
                  [("ATTIVO", JArr [line "Software" 3041])]
                  (JArr [line "Software" 3041]) eq_refl)).
  reflexivity.
Defined.

Lemma forallb_permutation {A : Type} (f : A -> bool) (l l' : list A) :
  Permutation l l' -> forallb f l = forallb f l'.
Proof.
  induction 1; simpl; try congruence.
  now rewrite !andb_assoc, (andb_comm (f y)).
Qed.

Lemma sum_Z_permutation (l l' : list Z) :
  Permutation l l' -> sum_Z l = sum_Z l'.
Proof.
  unfold sum_Z. induction 1; simpl; lia.
Qed.

Lemma sum_loop_inv (items : list json) (acc z : Z) :
  sum_loop acc items = Ok z ->
  forallb item_sums items = true /\ z = acc + sum_Z (map amount_of items).
Proof.
  intros H. destruct (forallb item_sums items) eqn:E.
  - rewrite (sum_loop_ok _ _ E) in H. inversion H. auto.
  - destruct (sum_loop_raises _ acc E) as [e He]. congruence.
Qed.

Lemma total_loop_inv (cats : dict) (t z : Z) :
  total_loop t cats = Ok z ->
  forallb (fun p => cat_sums (snd p)) cats = true
  /\ z = t + section_total cats.
Proof.
  intros H. destruct (forallb (fun p => cat_sums (snd p)) cats) eqn:E.
  - rewrite (total_loop_ok _ _ E) in H. inversion H. auto.
  - destruct (total_loop_raises _ t E) as [e He]. congruence.
Qed.

(** X9. Sums do not depend on the order: when the sum of a category's
    amounts is computed for one order of its items, every reordering gives
    the same sum; and a section total is the same for every reordering of
    its categories. *)
Theorem X9_sums_ignore_order :
  (forall l l' z,
     Permutation l l' ->
     sum_amounts (JArr l) = Ok z -> sum_amounts (JArr l') = Ok z)
  /\ (forall cats cats' t z,
        Permutation cats cats' ->
        total_loop t cats = Ok z -> total_loop t cats' = Ok z).
Proof.
  split.
  - intros l l' z Hp H. unfold sum_amounts in *. simpl in *.
    destruct (sum_loop_inv _ _ _ H) as [Hok ->].
    rewrite (forallb_permutation _ _ _ Hp) in Hok.
    rewrite (sum_loop_ok _ _ Hok). f_equal. f_equal.
    apply sum_Z_permutation, Permutation_map, Permutation_sym, Hp.
  - intros cats cats' t z Hp H.
    destruct (total_loop_inv _ _ _ H) as [Hok ->].
    rewrite (forallb_permutation _ _ _ Hp) in Hok.
    rewrite (total_loop_ok _ _ Hok). f_equal. f_equal.
    unfold section_total.
    apply sum_Z_permutation, Permutation_map, Permutation_sym, Hp.
Qed.

Lemma X9_witness :
  sum_amounts (JArr [line "Cassa" 250; line "Crediti" 150]) = Ok 400.
Proof.
  apply (proj1 X9_sums_ignore_order
           [line "Crediti" 150; line "Cassa" 250]
           [line "Cassa" 250; line "Crediti" 150] 400).
  - apply perm_swap.
  - reflexivity.
Defined.

Lemma subsection_titles_app (a b : list flowable) :
  subsection_titles (a ++ b) = subsection_titles a ++ subsection_titles b.
Proof.
  induction a as [|f a IH]; simpl; [reflexivity|].
  destruct f as [text st| | |]; try exact IH.
  destruct st; simpl; congruence.
Qed.

Lemma section_block_counts (cap tcap : string) (cats : dict) :
  subsection_titles (section_block cap tcap cats)
  = map fst (filter (fun p => truthy (snd p)) cats)
  /\ List.length (filter is_category_table (section_block cap tcap cats))
     = List.length (filter (fun p => truthy (snd p)) cats)
  /\ List.length (filter is_total_banner (section_block cap tcap cats)) = 1%nat.
Proof.
  unfold section_block. cbn [subsection_titles filter is_category_table
                               is_total_banner].
  rewrite subsection_titles_app, !filter_app, !length_app. simpl.
  rewrite app_nil_r.
  induction cats as [|[c v] cats (IH1 & IH2 & IH3)]; simpl; [auto|].
  rewrite subsection_titles_app, !filter_app, !length_app.
  unfold category_block at 1 3 5. destruct (truthy v); simpl.
  - rewrite IH1. repeat split; [congruence | lia].
  - rewrite IH1. repeat split; [congruence | lia].
Qed.

Lemma dict_has_true_get (k : string) (d : dict) :
  dict_has k d = true <-> exists v, dict_get k d = Some v.
Proof.
  induction d as [|[k' v] d IH]; simpl.
  - split; [discriminate | intros [v H]; discriminate].
  - destruct (String.eqb k k'); [split; eauto | exact IH].
Qed.

Lemma section_part_counts (key cap tcap : string) (d : dict) :
  key_ok key d = true ->
  subsection_titles (section_part key cap tcap d)
  = rendered_categories (dict_get key d)
  /\ List.length (filter is_category_table (section_part key cap tcap d))
     = List.length (rendered_categories (dict_get key d))
  /\ List.length (filter is_total_banner (section_part key cap tcap d))
     = (if dict_has key d then 1 else 0)%nat.
Proof.
  unfold key_ok, section_part, rendered_categories. intros H.
  destruct (dict_get key d) as [sec|] eqn:E.
  - assert (Hh : dict_has key d = true) by (apply dict_has_true_get; eauto).
    rewrite Hh. destruct sec; try discriminate.
    destruct (section_block_counts cap tcap kv) as (H1 & H2 & H3).
    rewrite length_map. auto.
  - apply dict_has_get in E. rewrite E. auto.
Qed.

(** X10. In a report that was produced, the category headers are the names
    of the non-empty categories, ATTIVO first, in the order of the
    document; there is one category table per header and one total banner
    per section present. *)
Theorem X10_headers_tables_banners (d : dict) (els : list flowable) :
  write_to_pdf d = Ok els ->
  subsection_titles els
  = rendered_categories (dict_get "ATTIVO" d)
    ++ rendered_categories (dict_get "PASSIVO" d)
  /\ List.length (filter is_category_table els)
     = List.length (subsection_titles els)
  /\ List.length (filter is_total_banner els) = sections_present d.
Proof.
  intros H. destruct (write_to_pdf_inv _ _ H) as [Hv ->].
  unfold valid in Hv. apply andb_true_iff in Hv as [Ha Hp].
  destruct (section_part_counts "ATTIVO" "ATTIVO (Assets)" "TOTAL ATTIVO" d Ha)
    as (A1 & A2 & A3).
  destruct (section_part_counts "PASSIVO" "PASSIVO (Liabilities & Equity)"
              "TOTAL PASSIVO" d Hp) as (P1 & P2 & P3).
  unfold report_layout, attivo_part, passivo_part, sections_present.
  rewrite !subsection_titles_app, !filter_app, !length_app.
  rewrite A1, A2, A3, P1, P2, P3. simpl. repeat split; lia.
Qed.

Lemma X10_witness :
  subsection_titles (report_layout doc_two_sections)
  = ["B) Immobilizzazioni immateriali"; "C) Attivo circolante";
     "A) Patrimonio netto"; "D) Debiti"].
Proof.
  exact (proj1 (X10_headers_tables_banners doc_two_sections
                  (report_layout doc_two_sections) eq_refl)).
Defined.

(** ** Amounts and their display *)

Lemma round53_small (a : Z) : 0 <= a < 2 ^ 53 -> round53 a = a.
Proof.
  intros [H0 H]. unfold round53.
  assert (Hk : Z.log2 a < 53).
  { destruct (Z.eq_dec a 0) as [->|Hn]; [reflexivity|].
    apply Z.log2_lt_pow2; lia. }
  apply Z.ltb_lt in Hk. now rewrite Hk.
Qed.

Lemma round53_fits (a : Z) :
  0 <= a -> (round53 a <? float_max_bound) = (a <? float_limit).
Proof.
  intros H0.
  assert (C1 : 2 ^ 53 < float_limit) by (vm_compute; reflexivity).
  assert (C2 : float_limit < float_max_bound) by (vm_compute; reflexivity).
  destruct (Z.ltb_spec (Z.log2 a) 53) as [Hk|Hk].
  - assert (Ha : a < 2 ^ 53).
    { destruct (Z.eq_dec a 0) as [->|Hn]; [reflexivity|].
      apply Z.log2_lt_pow2; lia. }
    rewrite round53_small by lia.
    transitivity true; [apply Z.ltb_lt | symmetry; apply Z.ltb_lt]; lia.
  - assert (Hpos : 0 < a).
    { destruct (Z.lt_trichotomy a 0) as [Hn|[Hz|Hp]]; [lia| |exact Hp].
      subst a. simpl in Hk. lia. }
    unfold round53. apply Z.ltb_ge in Hk as Hk'. rewrite Hk'. clear Hk'.
    set (k := Z.log2 a) in *.
    destruct (Z.log2_spec a Hpos) as [Hlo Hhi]. fold k in Hlo, Hhi.
    set (e := k - 52).
    assert (He : 1 <= e) by (unfold e; lia).
    rewrite Z.shiftr_div_pow2 by lia.
    set (E := 2 ^ e). set (h := 2 ^ (e - 1)).
    assert (HE : E = 2 * h).
    { unfold E, h. replace e with (Z.succ (e - 1)) at 1 by lia.
      rewrite Z.pow_succ_r by lia. reflexivity. }
    assert (Hh : 0 < h) by (unfold h; apply Z.pow_pos_nonneg; lia).
    assert (Hk2 : 2 ^ k = 2 ^ 52 * E).
    { unfold E, e. rewrite <- Z.pow_add_r by lia. f_equal. lia. }
    assert (Hk3 : 2 ^ Z.succ k = 2 ^ 53 * E).
    { rewrite Z.pow_succ_r by lia. rewrite Hk2.
      change (2 ^ 53) with (2 * 2 ^ 52). ring. }
    pose proof (Z.div_mod a E ltac:(lia)) as Hdm.
    pose proof (Z.mod_pos_bound a E ltac:(lia)) as Hr.
    set (q := a / E) in *. set (r := a mod E) in *.
    assert (Hq1 : 2 ^ 52 <= q) by nia.
    assert (Hq2 : q < 2 ^ 53) by nia.
    set (q' := if (h <? r) || ((r =? h) && Z.odd q) then q + 1 else q).
    assert (Hq' : q <= q' <= q + 1)
      by (unfold q'; destruct ((h <? r) || ((r =? h) && Z.odd q)); lia).
    assert (HEpos : 0 < E) by lia.
    destruct (Z.lt_trichotomy k 1023) as [Hlt|[Heq|Hgt]].
    + (* the result stays below 2 ^ 1023 *)
      assert (HEb : 2 ^ 53 * E <= 2 ^ 1023).
      { rewrite <- Hk3. apply Z.pow_le_mono_r; lia. }
      assert (C3 : 2 ^ 1023 < float_limit) by (vm_compute; reflexivity).
      set (M := 2 ^ 53) in *. set (T := 2 ^ 1023) in *.
      clearbody M T E h q r q'. clear Hk2 Hk3 Hlo Hhi Hq1 HE Hh.
      transitivity true; [apply Z.ltb_lt | symmetry; apply Z.ltb_lt].
      * assert (q' * E <= M * E) by nia. lia.
      * assert (E * q + r <= M * E) by nia. lia.
    + (* the last binade: only the top half-interval overflows *)
      assert (HEv : E = 2 ^ 971) by (unfold E, e; rewrite Heq; reflexivity).
      assert (Hhv : h = 2 ^ 970) by (unfold h, e; rewrite Heq; reflexivity).
      assert (Hmax : float_max_bound = 2 ^ 53 * E)
        by (rewrite HEv; vm_compute; reflexivity).
      assert (Hlim : float_limit = 2 ^ 53 * E - h)
        by (rewrite HEv, Hhv; vm_compute; reflexivity).
      rewrite Hmax, Hlim.
      assert (Hodd : q = 2 ^ 53 - 1 -> Z.odd q = true)
        by (intros ->; reflexivity).
      unfold q'. clear q' Hq'.
      set (M := 2 ^ 53) in *.
      clearbody M E h q r.
      clear C1 C2 HEv Hhv Hmax Hlim Hk2 Hk3 Hlo Hhi Hq1.
      destruct (Z.eq_dec q (M - 1)) as [Hqe|Hqn].
      * rewrite (Hodd Hqe), andb_true_r. subst q.
        destruct (Z.ltb_spec h r) as [Hhr|Hhr]; cbn [orb].
        -- transitivity false; [apply Z.ltb_ge | symmetry; apply Z.ltb_ge]; nia.
        -- destruct (Z.eqb_spec r h) as [Hrh|Hrh].
           ++ transitivity false; [apply Z.ltb_ge | symmetry; apply Z.ltb_ge]; nia.
           ++ transitivity true; [apply Z.ltb_lt | symmetry; apply Z.ltb_lt]; nia.
      * assert (Hqm : q + 1 < M) by lia.
        destruct ((h <? r) || ((r =? h) && Z.odd q));
          (transitivity true; [apply Z.ltb_lt | symmetry; apply Z.ltb_lt]; nia).
    + (* beyond the range of a float *)
      assert (Hbig : float_max_bound <= 2 ^ k).
      { unfold float_max_bound. apply Z.pow_le_mono_r; lia. }
      set (L := 2 ^ 52) in *. set (K := 2 ^ k) in *.
      clearbody L K E h q r q'. clear Hk3 Hhi Hq2 HE Hh C1.
      transitivity false; [apply Z.ltb_ge | symmetry; apply Z.ltb_ge].
      * assert (L * E <= q' * E) by nia. lia.
      * lia.
Qed.

(** X11. An int amount is formatted exactly when its magnitude is below
    [2 ^ 1024 - 2 ^ 970]; from there on the conversion to float raises
    OverflowError, and a line item with such an amount in a section that
    is present makes the builder raise. *)
Theorem X11_amount_range :
  (forall n,
     format_2f (JInt n)
     = if Z.abs n <? float_limit then Ok (fmt_int n) else Raise OverflowError)
  /\ (forall d key cats c items kv n,
        key = "ATTIVO" \/ key = "PASSIVO" ->
        dict_get key d = Some (JObj cats) ->
        In (c, JArr items) cats ->
        In (JObj kv) items ->
        dict_get "amount" kv = Some (JInt n) ->
        float_limit <= Z.abs n ->
        raises (write_to_pdf d)).
Proof.
  split.
  - intros n. simpl. now rewrite round53_fits by apply Z.abs_nonneg.
  - intros d key cats c items kv n Hkey Hd Hc Hi Ha Hn.
    destruct (valid d) eqn:E; [|now apply write_to_pdf_invalid].
    exfalso.
    destruct (valid_category _ _ _ _ _ E Hkey Hd Hc) as [Hr _].
    unfold cat_renders in Hr.
    destruct items as [|i0 rest]; [contradiction|]. cbn [truthy] in Hr.
    apply andb_true_iff in Hr as [Hr _].
    rewrite forallb_forall in Hr. specialize (Hr _ Hi).
    simpl in Hr. unfold amount_val in Hr. rewrite Ha in Hr.
    unfold fits_float in Hr. rewrite round53_fits in Hr by apply Z.abs_nonneg.
    apply Z.ltb_lt in Hr. lia.
Qed.

Lemma X11_witness :
  raises (write_to_pdf
            [("ATTIVO",
              JObj [("C) Attivo circolante",
                     JArr [JObj [("label", JStr "Cassa");
                                 ("amount", JInt (2 ^ 1024))]])])]).
Proof.
  apply (proj2 X11_amount_range _ "ATTIVO"
           [("C) Attivo circolante",
             JArr [JObj [("label", JStr "Cassa"); ("amount", JInt (2 ^ 1024))]])]
           "C) Attivo circolante"
           [JObj [("label", JStr "Cassa"); ("amount", JInt (2 ^ 1024))]]
           [("label", JStr "Cassa"); ("amount", JInt (2 ^ 1024))]
           (2 ^ 1024)).
  - left. reflexivity.
  - reflexivity.
  - left. reflexivity.
  - left. reflexivity.
  - reflexivity.
  - vm_compute. discriminate.
Defined.

(** X6. For documents whose numbers are integers, everything the
    structural check [valid] rules out makes the builder raise.  In
    particular, in a category of a section that is present, an item that is
    not an object makes it raise, and so does a subtotal or a section total
    whose magnitude reaches [2 ^ 1024 - 2 ^ 970], also when every single
    amount is below it. *)
Theorem X6_invalid_documents_raise (d : dict) :
  (valid d = false -> raises (write_to_pdf d))
  /\ (forall key cats c items,
        key = "ATTIVO" \/ key = "PASSIVO" ->
        dict_get key d = Some (JObj cats) ->
        In (c, JArr items) cats ->
        ((exists it, In it items /\ is_dict it = false) ->
         raises (write_to_pdf d))
        /\ (float_limit <= Z.abs (sum_Z (map amount_of items)) ->
            raises (write_to_pdf d))
        /\ (float_limit <= Z.abs (section_total cats) ->
            raises (write_to_pdf d))).
Proof.
  split; [apply write_to_pdf_invalid|].
  intros key cats c items Hkey Hd Hin.
  assert (Hcontra : (valid d = true -> False) -> raises (write_to_pdf d)).
  { intros H. destruct (valid d) eqn:E; [now destruct H|].
    now apply write_to_pdf_invalid. }
  split; [|split].
  - intros (it & Hit & Hnd). apply Hcontra. intros Hv.
    destruct (valid_category _ _ _ _ _ Hv Hkey Hd Hin) as [_ Hs].
    simpl in Hs. rewrite forallb_forall in Hs. specialize (Hs _ Hit).
    destruct it; simpl in *; congruence.
  - intros Hbig. apply Hcontra. intros Hv.
    destruct (valid_category _ _ _ _ _ Hv Hkey Hd Hin) as [Hr _].
    unfold cat_renders in Hr. destruct items as [|i0 rest].
    + simpl in Hbig. assert (0 < float_limit) by reflexivity. lia.
    + cbn [truthy] in Hr. apply andb_true_iff in Hr as [_ Hr].
      unfold fits_float in Hr.
      rewrite round53_fits in Hr by apply Z.abs_nonneg.
      apply Z.ltb_lt in Hr. lia.
  - intros Hbig. apply Hcontra. intros Hv.
    destruct (key_ok_shape _ _ _ (valid_key _ _ Hv Hkey) Hd)
      as (cats' & E & Hs).
    inversion E; subst cats'. simpl in Hs.
    apply andb_true_iff in Hs as [_ Hs]. unfold fits_float in Hs.
    rewrite round53_fits in Hs by apply Z.abs_nonneg.
    apply Z.ltb_lt in Hs. lia.
Qed.

Lemma X6_witness :
  raises (write_to_pdf
            [("ATTIVO",
              JObj [("B) Software", JArr [line "Licenze" 10; JStr "n/a"])])]).
Proof.
  apply (proj1 (X6_invalid_documents_raise
                  [("ATTIVO",
                    JObj [("B) Software",
                           JArr [line "Licenze" 10; JStr "n/a"])])])).
  reflexivity.
Defined.

Lemma digits_are_digits (u : Decimal.uint) :
  str_all is_digit (NilEmpty.string_of_uint u) = true.
Proof. induction u; simpl; auto. Qed.

Lemma str_all_of_list (p : ascii -> bool) (l : list ascii) :
  str_all p (string_of_list_ascii l) = forallb p l.
Proof. induction l as [|c l IH]; simpl; [reflexivity | now rewrite IH]. Qed.

Lemma forallb_list_of_string (p : ascii -> bool) (s : string) :
  forallb p (list_ascii_of_string s) = str_all p s.
Proof. induction s as [|c s IH]; simpl; [reflexivity | now rewrite IH]. Qed.

Lemma forallb_rev_s {A : Type} (p : A -> bool) (l : list A) :
  forallb p (rev l) = forallb p l.
Proof.
  destruct (forallb p l) eqn:E.
  - rewrite forallb_forall in *. intros x Hx. apply E, in_rev, Hx.
  - destruct (forallb p (rev l)) eqn:E'; [|reflexivity].
    rewrite forallb_forall in E'.
    assert (forallb p l = true).
    { apply forallb_forall. intros x Hx. apply E'. now apply -> in_rev. }
    congruence.
Qed.

Lemma group3_rev_all (p : ascii -> bool) (ds : list ascii) : forall i,
  p comma = true -> forallb p ds = true -> forallb p (group3_rev ds i) = true.
Proof.
  induction ds as [|d ds IH]; intros i Hc H; simpl in *; [reflexivity|].
  apply andb_true_iff in H as [Hd Hds].
  destruct i as [|[|[|[|i]]]]; simpl; rewrite ?Hc, ?Hd; simpl; now apply IH.
Qed.

Lemma group3_rev_filter (ds : list ascii) : forall i,
  forallb (fun c => negb (Ascii.eqb c comma)) ds = true ->
  filter (fun c => negb (Ascii.eqb c comma)) (group3_rev ds i) = ds.
Proof.
  induction ds as [|d ds IH]; intros i H; simpl in *; [reflexivity|].
  apply andb_true_iff in H as [Hd Hds].
  destruct i as [|[|[|[|i]]]]; simpl; rewrite ?Hd; simpl;
    now rewrite (IH _ Hds).
Qed.

Lemma remove_char_of_list (c : ascii) (l : list ascii) :
  remove_char c (string_of_list_ascii l)
  = string_of_list_ascii (filter (fun a => negb (Ascii.eqb a c)) l).
Proof.
  induction l as [|a l IH]; simpl; [reflexivity|].
  destruct (Ascii.eqb a c); simpl; now rewrite IH.
Qed.

Lemma remove_commas_group3 (digits : string) :
  str_all (fun c => negb (Ascii.eqb c comma)) digits = true ->
  remove_char comma (group3 digits) = digits.
Proof.
  intros H. unfold group3.
  rewrite remove_char_of_list, filter_rev, group3_rev_filter.
  - now rewrite rev_involutive, string_of_list_ascii_of_string.
  - now rewrite forallb_rev_s, forallb_list_of_string.
Qed.

Lemma group3_all (p : ascii -> bool) (digits : string) :
  p comma = true -> str_all p digits = true -> str_all p (group3 digits) = true.
Proof.
  intros Hc H. unfold group3.
  rewrite str_all_of_list, forallb_rev_s. apply group3_rev_all; [exact Hc|].
  now rewrite forallb_rev_s, forallb_list_of_string.
Qed.

Lemma before_char_app (c : ascii) (x y : string) :
  str_all (fun a => negb (Ascii.eqb a c)) x = true ->
  before_char c (x ++ String c y)%string = x.
Proof.
  induction x as [|a x IH]; simpl.
  - now rewrite Ascii.eqb_refl.
  - intros H. apply andb_true_iff in H as [Ha Hx].
    apply negb_true_iff in Ha. now rewrite Ha, (IH Hx).
Qed.

Lemma is_digit_facts (c : ascii) :
  is_digit c = true ->
  negb (Ascii.eqb c comma) = true /\ negb (Ascii.eqb c dot) = true
  /\ Ascii.eqb c (ascii_of_nat 45) = false.
Proof.
  destruct c as [[] [] [] [] [] [] [] []]; vm_compute; auto; discriminate.
Qed.

Lemma to_uint_nonnil (m : N) : N.to_uint m <> Decimal.Nil.
Proof.
  destruct m as [|p]; [discriminate | apply DecimalPos.Unsigned.to_uint_nonnil].
Qed.

(** The digits of a natural number, separators put in and taken out. *)
Lemma read_back_digits (m : N) :
  let digits := NilZero.string_of_uint (N.to_uint m) in
  before_char dot (group3 digits ++ ".00")%string = group3 digits
  /\ remove_char comma (group3 digits) = digits
  /\ NilZero.uint_of_string digits = Some (N.to_uint m)
  /\ first_char_is is_digit digits = true.
Proof.
  intros digits.
  assert (Hd : digits = NilEmpty.string_of_uint (N.to_uint m)).
  { unfold digits, NilZero.string_of_uint.
    destruct (N.to_uint m) eqn:E; try reflexivity.
    exfalso. exact (to_uint_nonnil m E). }
  assert (Hall : str_all is_digit digits = true)
    by (rewrite Hd; apply digits_are_digits).
  split; [|split; [|split]].
  - apply (before_char_app dot (group3 digits) "00").
    apply group3_all; [reflexivity|].
    revert Hall. apply str_all_weaken. intros c H. apply is_digit_facts, H.
  - apply remove_commas_group3.
    revert Hall. apply str_all_weaken. intros c H. apply is_digit_facts, H.
  - unfold digits. apply NilZero.usu, to_uint_nonnil.
  - rewrite Hd in *. destruct (N.to_uint m) eqn:E; simpl in *;
      try reflexivity.
    exfalso. exact (to_uint_nonnil m E).
Qed.

(** X12. Below [2 ^ 53] the display is exact: reading a formatted amount
    back (separators and decimals removed) gives the amount itself. *)
Theorem X12_display_round_trip (n : Z) :
  Z.abs n < 2 ^ 53 -> read_amount (fmt_int n) = Some n.
Proof.
  intros Hn. unfold fmt_int, read_amount.
  rewrite round53_small by (split; [apply Z.abs_nonneg | exact Hn]).
  set (m := Z.to_N (Z.abs n)).
  destruct (read_back_digits m) as (Hb & Hr & Hu & Hf).
  set (digits := NilZero.string_of_uint (N.to_uint m)) in *.
  assert (Hm : Z.of_N (N.of_uint (N.to_uint m)) = Z.abs n).
  { rewrite DecimalN.Unsigned.of_to. unfold m. apply Z2N.id, Z.abs_nonneg. }
  destruct (Z.ltb_spec n 0) as [Hneg|Hpos].
  - assert (E : before_char dot ("-" ++ group3 digits ++ ".00")%string
                = String "-" (group3 digits)).
    { change ("-" ++ group3 digits ++ ".00")%string
        with (String "-" (group3 digits ++ ".00"))%string.
      cbn [before_char]. change (Ascii.eqb "-" dot) with false. cbn iota.
      now rewrite Hb. }
    rewrite E. cbn [remove_char]. change (Ascii.eqb "-" comma) with false.
    cbn iota. rewrite Hr. change (Ascii.eqb "-" (ascii_of_nat 45)) with true.
    cbn iota. rewrite Hu. simpl option_map. rewrite Hm. f_equal. lia.
  - rewrite Hb, Hr.
    destruct digits as [|c rest] eqn:E; [discriminate Hf|].
    simpl in Hf. destruct (is_digit_facts c Hf) as (_ & _ & Hminus).
    rewrite Hminus, Hu. simpl option_map. rewrite Hm. f_equal. lia.
Qed.

Lemma X12_witness :
  read_amount "-1,234,567.00" = Some (-1234567).
Proof.
  change "-1,234,567.00" with (fmt_int (-1234567)).
  apply X12_display_round_trip. reflexivity.
Defined.

(** * The text source *)

Lemma collect_text_filter (paragraphs : list string) : forall full_text,
  collect_text full_text paragraphs
  = full_text ++ filter nonblank (map (strip isspace) paragraphs).
Proof.
  induction paragraphs as [|p ps IH]; intros acc.
  - simpl. now rewrite app_nil_r.
  - cbn [collect_text map filter]. unfold nonblank at 1.
    destruct (truthy (JStr (strip isspace p))); rewrite IH;
      [now rewrite <- app_assoc | reflexivity].
Qed.

Lemma lstrip_all (p : ascii -> bool) (s : string) :
  str_all p s = true -> lstrip p s = EmptyString.
Proof.
  induction s as [|c s IH]; simpl; [reflexivity|].
  intros H. apply andb_true_iff in H as [Hc Hs]. now rewrite Hc, IH.
Qed.

Lemma lstrip_fix (p : ascii -> bool) (s : string) :
  first_char_is p s = false -> lstrip p s = s.
Proof. destruct s as [|c s]; simpl; [reflexivity | now intros ->]. Qed.

Lemma rstrip_fix (p : ascii -> bool) (s : string) :
  last_char_is p s = false -> rstrip p s = s.
Proof.
  induction s as [|c s IH]; [reflexivity|].
  destruct s as [|a t].
  - simpl. now intros ->.
  - intros H. change (last_char_is p (String a t) = false) in H.
    cbn [rstrip]. cbn [rstrip] in IH. now rewrite (IH H).
Qed.

Lemma strip_ends (p : ascii -> bool) (s : string) :
  first_char_is p (strip p s) = false /\ last_char_is p (strip p s) = false.
Proof.
  unfold strip. split.
  - apply first_char_rstrip, first_char_lstrip.
  - apply last_char_rstrip.
Qed.

Lemma strip_idempotent (p : ascii -> bool) (s : string) :
  strip p (strip p s) = strip p s.
Proof.
  destruct (strip_ends p s) as [Hf Hl].
  unfold strip at 1. now rewrite (lstrip_fix _ _ Hf), (rstrip_fix _ _ Hl).
Qed.

Lemma first_char_app (p : ascii -> bool) (a b : string) :
  a <> EmptyString -> first_char_is p (a ++ b)%string = first_char_is p a.
Proof. destruct a; [congruence | reflexivity]. Qed.

Lemma last_char_app (p : ascii -> bool) (a b : string) :
  b <> EmptyString -> last_char_is p (a ++ b)%string = last_char_is p b.
Proof.
  intros Hb. induction a as [|c a IH]; [reflexivity|].
  cbn [append]. destruct (a ++ b)%string as [|x y] eqn:E.
  - destruct a; [simpl in E; congruence | discriminate].
  - exact IH.
Qed.

Lemma collected_lines_good (paragraphs : list string) :
  Forall good_line (filter nonblank (map (strip isspace) paragraphs)).
Proof.
  apply Forall_forall. intros l Hl. apply filter_In in Hl as [Hin Hnb].
  apply in_map_iff in Hin as (p & <- & _).
  destruct (strip_ends isspace p) as [Hf Hla].
  repeat split; try assumption.
  intros E. unfold nonblank in Hnb. rewrite E in Hnb. discriminate.
Qed.

Lemma concat_good_lines (lines : list string) :
  Forall good_line lines ->
  first_char_is isspace (String.concat (String newline EmptyString) lines) = false
  /\ last_char_is isspace (String.concat (String newline EmptyString) lines) = false
  /\ (lines <> [] ->
      String.concat (String newline EmptyString) lines <> EmptyString).
Proof.
  induction 1 as [|l ls (Hne & Hf & Hl) Hls (IHf & IHl & IHn)].
  - repeat split; try reflexivity. congruence.
  - cbn [String.concat]. destruct ls as [|l' ls'].
    + repeat split; auto.
    + assert (Hrest : String.concat (String newline EmptyString) (l' :: ls')
                      <> EmptyString) by (apply IHn; discriminate).
      repeat split.
      * now rewrite first_char_app.
      * rewrite last_char_app by discriminate.
        rewrite (last_char_app isspace (String newline EmptyString) _ Hrest).
        exact IHl.
      * intros _. destruct l; [congruence | discriminate].
Qed.

(** X13. Paragraphs that are empty or all whitespace leave no trace in the
    text read: taking one out changes nothing, and a document with only
    such paragraphs reads as the empty string. *)
Theorem X13_blank_paragraphs_dropped :
  (forall pre p post,
     str_all isspace p = true ->
     read_docx (pre ++ p :: post) = read_docx (pre ++ post))
  /\ (forall paragraphs,
        forallb (str_all isspace) paragraphs = true ->
        read_docx paragraphs = EmptyString).
Proof.
  assert (Hblank : forall p, str_all isspace p = true ->
                             nonblank (strip isspace p) = false).
  { intros p Hp. unfold strip. now rewrite (lstrip_all _ _ Hp). }
  split.
  - intros pre p post Hp. unfold read_docx.
    rewrite !collect_text_filter, !map_app, !filter_app. simpl.
    now rewrite (Hblank p Hp).
  - intros ps H. unfold read_docx. rewrite collect_text_filter. simpl.
    induction ps as [|p ps IH]; [reflexivity|].
    simpl in H. apply andb_true_iff in H as [Hp Hps].
    simpl. rewrite (Hblank p Hp). now apply IH.
Qed.

Lemma X13_witness :
  read_docx ["Stato patrimoniale"; "   "; "Cassa 100"]
  = read_docx ["Stato patrimoniale"; "Cassa 100"].
Proof.
  apply (proj1 X13_blank_paragraphs_dropped ["Stato patrimoniale"] "   "
           ["Cassa 100"]).
  reflexivity.
Defined.

(** X14. The text read never starts or ends with whitespace, and it is the
    same whether or not the paragraphs were stripped beforehand. *)
Theorem X14_read_docx_is_trimmed (paragraphs : list string) :
  first_char_is isspace (read_docx paragraphs) = false
  /\ last_char_is isspace (read_docx paragraphs) = false
  /\ read_docx (map (strip isspace) paragraphs) = read_docx paragraphs.
Proof.
  unfold read_docx. rewrite !collect_text_filter. simpl.
  destruct (concat_good_lines _ (collected_lines_good paragraphs))
    as (Hf & Hl & _).
  repeat split; try assumption.
  rewrite map_map. f_equal. f_equal.
  apply map_ext. intros p. apply strip_idempotent.
Qed.

(** * The row loops of the spreadsheet export *)

Lemma rows_of_records_ok (section subcat : string) (records : list json) :
  forall rows,
  forallb is_dict records = true ->
  rows_of_records rows section subcat records
  = Ok (rows ++ map (excel_row section subcat) records).
Proof.
  induction records as [|rec rest IH]; intros rows H; simpl in *.
  - now rewrite app_nil_r.
  - apply andb_true_iff in H as [Hr Hrest].
    destruct rec; try discriminate. simpl.
    rewrite (IH _ Hrest), <- app_assoc. reflexivity.
Qed.

Lemma rows_of_records_raises (section subcat : string) (records : list json) :
  forall rows,
  forallb is_dict records = false ->
  raises (rows_of_records rows section subcat records).
Proof.
  induction records as [|rec rest IH]; intros rows H; simpl in *.
  - discriminate.
  - destruct rec; simpl in *; try raise_now. now apply IH.
Qed.

Lemma rows_of_subcats_ok (section : string) (subcats : dict) : forall rows,
  forallb (fun p => records_ok (snd p)) subcats = true ->
  rows_of_subcats rows section subcats
  = Ok (rows ++ flat_map (fun p => map (excel_row section (fst p))
                                       (records_of (snd p))) subcats).
Proof.
  induction subcats as [|[subcat records] rest IH]; intros rows H; simpl in *.
  - now rewrite app_nil_r.
  - apply andb_true_iff in H as [Hr Hrest].
    unfold records_ok in Hr. unfold records_of.
    destruct (py_iter records) as [l|e]; [|discriminate]. cbn [bind].
    rewrite (rows_of_records_ok _ _ _ _ Hr). cbn [bind].
    rewrite (IH _ Hrest), <- app_assoc. reflexivity.
Qed.

Lemma rows_of_subcats_raises (section : string) (subcats : dict) : forall rows,
  forallb (fun p => records_ok (snd p)) subcats = false ->
  raises (rows_of_subcats rows section subcats).
Proof.
  induction subcats as [|[subcat records] rest IH]; intros rows H; simpl in *.
  - discriminate.
  - unfold records_ok in H at 1.
    destruct (py_iter records) as [l|e]; cbn [bind]; [|raise_now].
    destruct (forallb is_dict l) eqn:Hl; simpl in H.
    + rewrite (rows_of_records_ok _ _ _ _ Hl). cbn [bind]. now apply IH.
    + destruct (rows_of_records_raises section subcat l rows Hl) as [e He].
      rewrite He. raise_now.
Qed.

Lemma section_rows_length (section : string) (subcats : dict) :
  List.length (section_rows section subcats)
  = list_sum (map (fun p => List.length (records_of (snd p))) subcats).
Proof.
  unfold section_rows. induction subcats as [|[k v] rest IH]; simpl;
    [reflexivity|].
  now rewrite length_app, length_map, IH.
Qed.

(** X15. The loops that build the rows of a section give one row per
    record, in document order, each with the section and subcategory names
    and with the record's label and amount as they are, null when absent:
    nothing is defaulted or formatted.  They raise exactly when the
    records of some subcategory cannot be iterated or hold a record that
    is not an object. *)
Theorem X15_export_rows (section : string) (subcats : dict)
    (rows : list dict) :
  (forallb (fun p => records_ok (snd p)) subcats = true ->
   rows_of_subcats rows section subcats
   = Ok (rows ++ section_rows section subcats))
  /\ (forallb (fun p => records_ok (snd p)) subcats = false ->
      raises (rows_of_subcats rows section subcats))
  /\ List.length (section_rows section subcats)
     = list_sum (map (fun p => List.length (records_of (snd p))) subcats).
Proof.
  split; [apply rows_of_subcats_ok|].
  split; [apply rows_of_subcats_raises | apply section_rows_length].
Qed.

Lemma X15_witness :
  rows_of_subcats [] "Note"
    [("x", JArr [JObj [("amount", JStr "n/a")]; JObj [("label", JStr "y")]]);
     ("z", JArr [])]
  = Ok [[("section", JStr "Note"); ("subcategory", JStr "x");
         ("label", JNull); ("amount", JStr "n/a")];
        [("section", JStr "Note"); ("subcategory", JStr "x");
         ("label", JStr "y"); ("amount", JNull)]].
Proof.
  apply (proj1 (X15_export_rows "Note"
                  [("x", JArr [JObj [("amount", JStr "n/a")];
                               JObj [("label", JStr "y")]]);
                   ("z", JArr [])] [])).
  reflexivity.
Defined.

Lemma cat_sums_records_ok (v : json) : cat_sums v = true -> records_ok v = true.
Proof.
  destruct v as [| | |s|l|kv]; simpl; try discriminate.
  - destruct s; [reflexivity | discriminate].
  - intros H. unfold records_ok. simpl. rewrite forallb_forall in *.
    intros x Hx. specialize (H x Hx). destruct x; simpl in *; congruence.
  - destruct kv; [reflexivity | discriminate].
Qed.

(** X17. A section for which the report builder produced a report can be
    flattened by the export loops: they build its rows without raising. *)
Theorem X17_report_implies_rows (d : dict) (els : list flowable)
    (key : string) (sec : json) :
  write_to_pdf d = Ok els ->
  key = "ATTIVO" \/ key = "PASSIVO" ->
  dict_get key d = Some sec ->
  exists subcats,
    sec = JObj subcats
    /\ rows_of_subcats [] key subcats = Ok (section_rows key subcats).
Proof.
  intros H Hkey Hd. destruct (write_to_pdf_inv _ _ H) as [Hv _].
  destruct (key_ok_shape _ _ _ (valid_key _ _ Hv Hkey) Hd) as (cats & -> & Hs).
  exists cats. split; [reflexivity|].
  apply (rows_of_subcats_ok key cats []).
  simpl in Hs. apply andb_true_iff in Hs as [Hs _].
  apply andb_true_iff in Hs as [_ Hs].
  rewrite forallb_forall in *. intros p Hp.
  apply cat_sums_records_ok, Hs, Hp.
Qed.

Lemma X17_witness :
  exists subcats,
    JObj [("A) Patrimonio netto",
           JArr [line "Capitale" 4000; line "Perdita" (-359)]);
          ("D) Debiti",
           JArr [line "Fornitori" 600; line "Banche" 400])]
    = JObj subcats
    /\ rows_of_subcats [] "PASSIVO" subcats
       = Ok (section_rows "PASSIVO" subcats).
Proof.
  apply (X17_report_implies_rows doc_two_sections
           (report_layout doc_two_sections) "PASSIVO").
  - reflexivity.
  - right. reflexivity.
  - reflexivity.
Defined.

(** * The upload gate *)

Lemma split_last_none (c : ascii) (s : string) :
  contains c s = false -> split_last c s = None.
Proof.
  induction s as [|a s IH]; simpl; [reflexivity|].
  intros H. apply orb_false_iff in H as [Ha Hs]. now rewrite (IH Hs), Ha.
Qed.

Lemma split_last_spec (c : ascii) (s a b : string) :
  split_last c s = Some (a, b) ->
  s = (a ++ String c b)%string /\ contains c b = false.
Proof.
  revert a. induction s as [|x s IH]; simpl; intros a H; [discriminate|].
  destruct (split_last c s) as [[a' b']|] eqn:E.
  - inversion H; subst. destruct (IH _ eq_refl) as [-> Hb]. auto.
  - destruct (Ascii.eqb x c) eqn:Ex; [|discriminate].
    inversion H; subst. apply Ascii.eqb_eq in Ex. subst x. split; [reflexivity|].
    clear H IH. induction b as [|y b IHb]; simpl in *; [reflexivity|].
    destruct (split_last c b) as [[? ?]|]; [discriminate|].
    destruct (Ascii.eqb y c); [discriminate|]. simpl. now apply IHb.
Qed.

Lemma split_last_app (c : ascii) (a b : string) :
  contains c b = false -> split_last c (a ++ String c b)%string = Some (a, b).
Proof.
  intros Hb. induction a as [|x a IH]; simpl.
  - now rewrite (split_last_none _ _ Hb), Ascii.eqb_refl.
  - now rewrite IH.
Qed.

Lemma contains_app (c : ascii) (a b : string) :
  contains c (a ++ b)%string = contains c a || contains c b.
Proof.
  induction a as [|x a IH]; simpl; [reflexivity|].
  now rewrite IH, orb_assoc.
Qed.

Lemma lower_char_dot (c : ascii) :
  Ascii.eqb (lower_char c) dot = Ascii.eqb c dot.
Proof. destruct c as [[] [] [] [] [] [] [] []]; reflexivity. Qed.

Lemma contains_dot_lower (s : string) :
  contains dot (lower s) = contains dot s.
Proof.
  induction s as [|c s IH]; simpl; [reflexivity|].
  now rewrite lower_char_dot, IH.
Qed.

(** X18. A file name passes the gate exactly when it ends with a dot
    followed by docx in any mix of upper and lower case.  Only what follows
    the last dot counts: the part before it is not looked at (it may be
    empty, or contain dots), and a name with another last extension is
    refused whatever comes before. *)
Theorem X18_allowed_file_iff (filename : string) :
  (allowed_file filename = true <->
   exists stem ext,
     filename = (stem ++ String dot ext)%string /\ lower ext = "docx")
  /\ (forall stem ext,
        filename = (stem ++ String dot ext)%string ->
        contains dot ext = false ->
        allowed_file filename = String.eqb (lower ext) "docx").
Proof.
  assert (Hgen : forall stem ext,
             filename = (stem ++ String dot ext)%string ->
             contains dot ext = false ->
             allowed_file filename = String.eqb (lower ext) "docx").
  { intros stem ext -> Hext. unfold allowed_file, rsplit1.
    rewrite (split_last_app dot stem ext Hext).
    rewrite contains_app. cbn [contains nth_error existsb ALLOWED_EXTENSIONS].
    rewrite Ascii.eqb_refl. cbn [orb]. rewrite orb_true_r. cbn [andb].
    now rewrite orb_false_r. }
  split; [split|exact Hgen].
  - unfold allowed_file, rsplit1. intros H.
    apply andb_true_iff in H as [_ H].
    destruct (split_last dot filename) as [[a b]|] eqn:E; [|discriminate].
    destruct (split_last_spec _ _ _ _ E) as [-> _].
    exists a, b. split; [reflexivity|].
    simpl in H. rewrite orb_false_r in H. now apply String.eqb_eq in H.
  - intros (stem & ext & Hf & Hl).
    rewrite (Hgen stem ext Hf).
    + rewrite Hl. reflexivity.
    + rewrite <- contains_dot_lower, Hl. reflexivity.
Qed.

Lemma X18_witness :
  allowed_file "bilancio.2024.DocX" = true
  /\ allowed_file "bilancio.docx.exe" = false.
Proof.
  split.
  - apply (proj1 (X18_allowed_file_iff "bilancio.2024.DocX")).
    exists "bilancio.2024", "DocX". split; reflexivity.
  - rewrite (proj2 (X18_allowed_file_iff "bilancio.docx.exe")
               "bilancio.docx" "exe" eq_refl eq_refl).
    reflexivity.
Defined.

(** * The sums and what the report shows of them *)






